(** * Voice transcriber: client pipeline and transcription server

  A shallow embedding of [client/voice_notes.py] and
  [server/whisper_server.py], together with the parts of the Python
  standard library they call ([wave], [struct], [io.BytesIO],
  [tempfile], [pathlib]), and the properties of the pipeline proved on it.

  Conventions.
  - A Python [str] is a list of Unicode code points ([list N]); [lit]
    turns a literal of the source into such a list.
  - [bytes] is [list byte].
  - A call that can raise returns an [outcome]; [let* x := c in k] runs
    [k] when [c] returned and propagates the exception otherwise.
  - The outside world (operator, microphone, HTTP peers, clock, model)
    is an explicit record of what each external call answers. *)

From Stdlib Require Import ZArith List Lia String Ascii.
From Stdlib.Strings Require Import Byte.
From Stdlib Require Import DecimalN.
From stdpp Require Import gmap list.
Import ListNotations.

Local Open Scope Z_scope.

(* ===================================================================== *)
(** ** Python values *)
(* ===================================================================== *)

Module Py.

Abbreviation str := (list N).
Abbreviation bytes := (list byte).

(** A string literal of the source, as code points. *)
Definition lit (s : string) : str :=
  map N_of_ascii (list_ascii_of_string s).

(** The exceptions the two programs tell apart.  [HTTPError] carries the
    response it was raised for ([e.response.status_code],
    [e.response.text]); every class carries the text [str(e)]. *)
Inductive exn : Type :=
| ConnectionError (msg : str)
| HTTPError (status_code : Z) (text : str) (msg : str)
| Exception (msg : str).

(** [str(e)] *)
Definition str_of_exn (e : exn) : str :=
  match e with
  | ConnectionError m => m
  | HTTPError _ _ m => m
  | Exception m => m
  end.

Inductive outcome (A : Type) : Type :=
| Ret (a : A)
| Raise (e : exn).
Arguments Ret {A} a.
Arguments Raise {A} e.

Definition bind {A B} (c : outcome A) (k : A -> outcome B) : outcome B :=
  match c with
  | Ret a => k a
  | Raise e => Raise e
  end.

(** [str(n)] for an integer. *)
Fixpoint digits_of_uint (u : Decimal.uint) : str :=
  match u with
  | Decimal.Nil => []
  | Decimal.D0 r => 48%N :: digits_of_uint r
  | Decimal.D1 r => 49%N :: digits_of_uint r
  | Decimal.D2 r => 50%N :: digits_of_uint r
  | Decimal.D3 r => 51%N :: digits_of_uint r
  | Decimal.D4 r => 52%N :: digits_of_uint r
  | Decimal.D5 r => 53%N :: digits_of_uint r
  | Decimal.D6 r => 54%N :: digits_of_uint r
  | Decimal.D7 r => 55%N :: digits_of_uint r
  | Decimal.D8 r => 56%N :: digits_of_uint r
  | Decimal.D9 r => 57%N :: digits_of_uint r
  end.

Definition str_of_N (n : N) : str := digits_of_uint (N.to_uint n).

Definition str_of_Z (z : Z) : str :=
  if z <? 0 then 45%N :: str_of_N (Z.to_N (- z)) else str_of_N (Z.to_N z).

(** [s.rjust(w, "0")] on a digit string: the padding of [%m], [%d], ... *)
Definition zfill (w : nat) (s : str) : str :=
  repeat 48%N (w - length s) ++ s.

(** Python's binary floats.  Their arithmetic is not re-implemented: the
    three operations the programs use are an interface.
    - [float_div a b] is [a / b] on two integers,
    - [py_round x n] is the builtin [round(x, n)],
    - [str_of_float x] is [str(x)], what an f-string prints. *)
Class FloatOps : Type := {
  pyfloat : Type;
  float_div : Z -> Z -> pyfloat;
  py_round : pyfloat -> Z -> pyfloat;
  str_of_float : pyfloat -> str
}.

Definition nl : str := [10%N].

(** [sep.join(parts)] *)
Fixpoint join (sep : str) (parts : list str) : str :=
  match parts with
  | [] => []
  | [x] => x
  | x :: r => x ++ sep ++ join sep r
  end.

(** [c.isspace()]: the code points [str.strip()] removes. *)
Definition isspace (c : N) : bool :=
  ((9 <=? c) && (c <=? 13) || (28 <=? c) && (c <=? 32)
   || (c =? 133) || (c =? 160) || (c =? 5760)
   || (8192 <=? c) && (c <=? 8202)
   || (c =? 8232) || (c =? 8233) || (c =? 8239) || (c =? 8287)
   || (c =? 12288))%N.

Fixpoint lstrip (s : str) : str :=
  match s with
  | [] => []
  | c :: r => if isspace c then lstrip r else s
  end.

Definition rstrip (s : str) : str := rev (lstrip (rev s)).

(** [s.strip()] *)
Definition strip (s : str) : str := rstrip (lstrip s).

(** [s.lower()] on the ASCII letters.  Code points outside ASCII are
    left as they are: the client only compares the result with [q], and
    no code point outside ASCII lowers to [q]. *)
Definition lower_char (c : N) : N :=
  if ((65 <=? c) && (c <=? 90))%N then (c + 32)%N else c.

Definition lower (s : str) : str := map lower_char s.

(** What differs between hosts: the path separator of [pathlib], what
    [PurePath(p).suffix] makes of a path, and the directory [tempfile]
    creates files in (absolute, without a trailing separator). *)
Class Platform : Type := {
  os_sep : str;
  path_suffix : str -> str;
  gettempdir : str
}.

(** [dir / name] for a [name] with no separator of its own. *)
Definition path_join `{Platform} (dir name : str) : str :=
  dir ++ os_sep ++ name.

End Py.
Import Py.

Notation "'let*' x ':=' c 'in' k" := (bind c (fun x => k))
  (at level 10, x pattern, c at level 100, k at level 200).

(* ===================================================================== *)
(** ** [struct], [io.BytesIO] and the [wave] module *)
(* ===================================================================== *)

Module Struct.

#[global] Instance byte_eq_decision : EqDecision byte := Byte.byte_eq_dec.

Definition byte_of_Z (z : Z) : byte :=
  match Byte.of_N (Z.to_N (z mod 256)) with
  | Some b => b
  | None => "000"%byte
  end.

Definition Z_of_byte (b : byte) : Z := Z.of_N (Byte.to_N b).

(** [k] bytes of [v], least significant first. *)
Fixpoint le_bytes (k : nat) (v : Z) : bytes :=
  match k with
  | O => []
  | S k' => byte_of_Z v :: le_bytes k' (v / 256)
  end.

Fixpoint le_value (bs : bytes) : Z :=
  match bs with
  | [] => 0
  | b :: r => Z_of_byte b + 256 * le_value r
  end.

Definition struct_error (fmt : string) (hi : Z) : exn :=
  Exception (lit fmt ++ lit " format requires 0 <= number <= " ++ str_of_Z hi).

(** [struct.pack('<L', v)]: raises [struct.error] out of range. *)
Definition pack_L (v : Z) : outcome bytes :=
  if (0 <=? v) && (v <=? 4294967295) then Ret (le_bytes 4 v)
  else Raise (struct_error "'L'" 4294967295).

(** [struct.pack('<H', v)] *)
Definition pack_H (v : Z) : outcome bytes :=
  if (0 <=? v) && (v <=? 65535) then Ret (le_bytes 2 v)
  else Raise (struct_error "'H'" 65535).

(** [struct.unpack_from('<H', b)[0]]: [None] stands for [struct.error]
    (buffer too short). *)
Definition unpack_H (b : bytes) : option Z :=
  if (2 <=? length b)%nat then Some (le_value (firstn 2 b)) else None.

(** A [bytes] literal such as [b'RIFF']. *)
Definition blit (s : string) : bytes := list_byte_of_string s.

End Struct.
Import Struct.

Module BytesIO.

Record t : Type := mk { buf : bytes; pos : nat }.

Definition empty : t := {| buf := []; pos := 0 |}.

(** [f.write(b)]: overwrite at the position, zero-filling a gap and
    extending the buffer as needed; the position moves past [b]. *)
Definition write (b : bytes) (f : t) : t :=
  {| buf := firstn (pos f) (buf f)
            ++ repeat "000"%byte (pos f - length (buf f))
            ++ b
            ++ skipn (pos f + length b) (buf f);
     pos := pos f + length b |}.

Definition tell (f : t) : nat := pos f.

Definition seek (p : nat) (f : t) : t := {| buf := buf f; pos := p |}.

(** [f.read()]: everything from the position on. *)
Definition read (f : t) : bytes := skipn (pos f) (buf f).

(** The position is the end of the buffer: a write appends. *)
Definition at_end (f : t) : Prop := pos f = length (buf f).

End BytesIO.

Module Wave.

Definition WAVE_FORMAT_PCM : Z := 1.

Definition Error (msg : string) : exn := Exception (lit msg).

(** The fields of [Wave_write]. *)
Record Wave_write : Type := mkW {
  _file : BytesIO.t;
  _nchannels : Z;
  _sampwidth : Z;
  _framerate : Z;
  _nframes : Z;
  _nframeswritten : Z;
  _datawritten : Z;
  _datalength : Z;
  _headerwritten : bool;
  _form_length_pos : nat;
  _data_length_pos : nat
}.

(** [wave.open(buf, "wb")] *)
Definition open_wb (f : BytesIO.t) : Wave_write :=
  {| _file := f; _nchannels := 0; _sampwidth := 0; _framerate := 0;
     _nframes := 0; _nframeswritten := 0; _datawritten := 0;
     _datalength := 0; _headerwritten := false;
     _form_length_pos := 0; _data_length_pos := 0 |}.

Definition setnchannels (n : Z) (w : Wave_write) : outcome Wave_write :=
  if negb (_datawritten w =? 0) then
    Raise (Error "cannot change parameters after starting to write")
  else if n <? 1 then Raise (Error "bad # of channels")
  else Ret (mkW (_file w) n (_sampwidth w) (_framerate w) (_nframes w)
                (_nframeswritten w) (_datawritten w) (_datalength w)
                (_headerwritten w) (_form_length_pos w) (_data_length_pos w)).

Definition setsampwidth (n : Z) (w : Wave_write) : outcome Wave_write :=
  if negb (_datawritten w =? 0) then
    Raise (Error "cannot change parameters after starting to write")
  else if (n <? 1) || (4 <? n) then Raise (Error "bad sample width")
  else Ret (mkW (_file w) (_nchannels w) n (_framerate w) (_nframes w)
                (_nframeswritten w) (_datawritten w) (_datalength w)
                (_headerwritten w) (_form_length_pos w) (_data_length_pos w)).

(** The rate is an integer here, so [int(round(framerate))] is itself. *)
Definition setframerate (n : Z) (w : Wave_write) : outcome Wave_write :=
  if negb (_datawritten w =? 0) then
    Raise (Error "cannot change parameters after starting to write")
  else if n <=? 0 then Raise (Error "bad frame rate")
  else Ret (mkW (_file w) (_nchannels w) (_sampwidth w) n (_nframes w)
                (_nframeswritten w) (_datawritten w) (_datalength w)
                (_headerwritten w) (_form_length_pos w) (_data_length_pos w)).

(** [_write_header(initlength)].  The fields are assigned before the
    header is packed, and [b'RIFF'] is written before that. *)
Definition _write_header (initlength : Z) (w : Wave_write)
  : outcome Wave_write :=
  let f1 := BytesIO.write (blit "RIFF") (_file w) in
  let nframes :=
    if _nframes w =? 0 then initlength / (_nchannels w * _sampwidth w)
    else _nframes w in
  let datalength := nframes * _nchannels w * _sampwidth w in
  let form_length_pos := BytesIO.tell f1 in
  let* b_form := pack_L (36 + datalength) in
  let* b_fmtlen := pack_L 16 in
  let* b_tag := pack_H WAVE_FORMAT_PCM in
  let* b_nch := pack_H (_nchannels w) in
  let* b_rate := pack_L (_framerate w) in
  let* b_avg := pack_L (_nchannels w * _framerate w * _sampwidth w) in
  let* b_align := pack_H (_nchannels w * _sampwidth w) in
  let* b_bits := pack_H (_sampwidth w * 8) in
  let f2 := BytesIO.write
              (b_form ++ blit "WAVE" ++ blit "fmt " ++ b_fmtlen ++ b_tag
               ++ b_nch ++ b_rate ++ b_avg ++ b_align ++ b_bits
               ++ blit "data") f1 in
  let data_length_pos := BytesIO.tell f2 in
  let* b_len := pack_L datalength in
  let f3 := BytesIO.write b_len f2 in
  Ret (mkW f3 (_nchannels w) (_sampwidth w) (_framerate w) nframes
           (_nframeswritten w) (_datawritten w) datalength true
           form_length_pos data_length_pos).

Definition _ensure_header_written (datasize : Z) (w : Wave_write)
  : outcome Wave_write :=
  if negb (_headerwritten w) then
    if _nchannels w =? 0 then Raise (Error "# channels not specified")
    else if _sampwidth w =? 0 then Raise (Error "sample width not specified")
    else if _framerate w =? 0 then Raise (Error "sampling rate not specified")
    else _write_header datasize w
  else Ret w.

Definition _patchheader (w : Wave_write) : outcome Wave_write :=
  if _datawritten w =? _datalength w then Ret w
  else
    let curpos := BytesIO.tell (_file w) in
    let f1 := BytesIO.seek (_form_length_pos w) (_file w) in
    let* b1 := pack_L (36 + _datawritten w) in
    let f2 := BytesIO.write b1 f1 in
    let f3 := BytesIO.seek (_data_length_pos w) f2 in
    let* b2 := pack_L (_datawritten w) in
    let f4 := BytesIO.write b2 f3 in
    let f5 := BytesIO.seek curpos f4 in
    Ret (mkW f5 (_nchannels w) (_sampwidth w) (_framerate w) (_nframes w)
             (_nframeswritten w) (_datawritten w) (_datawritten w)
             (_headerwritten w) (_form_length_pos w) (_data_length_pos w)).

(** The samples are already little-endian, so no byte swap. *)
Definition writeframesraw (data : bytes) (w : Wave_write)
  : outcome Wave_write :=
  let len := Z.of_nat (length data) in
  let* w1 := _ensure_header_written len w in
  let nframes := len / (_sampwidth w1 * _nchannels w1) in
  let f := BytesIO.write data (_file w1) in
  Ret (mkW f (_nchannels w1) (_sampwidth w1) (_framerate w1) (_nframes w1)
           (_nframeswritten w1 + nframes) (_datawritten w1 + len)
           (_datalength w1) (_headerwritten w1)
           (_form_length_pos w1) (_data_length_pos w1)).

Definition writeframes (data : bytes) (w : Wave_write)
  : outcome Wave_write :=
  let* w1 := writeframesraw data w in
  if negb (_datalength w1 =? _datawritten w1) then _patchheader w1
  else Ret w1.

(** [close()], which leaving the [with] block calls. *)
Definition close (w : Wave_write) : outcome Wave_write :=
  let* w1 := _ensure_header_written 0 w in
  if negb (_datalength w1 =? _datawritten w1) then _patchheader w1
  else Ret w1.

(** *** Reading ([Wave_read]) *)

Record params : Type := mkParams {
  nchannels : Z;
  sampwidth : Z;
  framerate : Z;
  nframes : Z
}.

(** What [_read_fmt_chunk] extracts from the body of a [fmt ] chunk. *)
Definition _read_fmt_chunk (body : bytes) : option (Z * Z * Z) :=
  if (length body <? 14)%nat then None
  else
    let wFormatTag := le_value (firstn 2 body) in
    let nch := le_value (firstn 2 (skipn 2 body)) in
    let rate := le_value (firstn 4 (skipn 4 body)) in
    if wFormatTag =? WAVE_FORMAT_PCM then
      match unpack_H (skipn 14 body) with
      | None => None
      | Some bits =>
          let sw := (bits + 7) / 8 in
          if sw =? 0 then None
          else if nch =? 0 then None
          else Some (nch, sw, rate)
      end
    else None.

(** The chunk loop of [initfp]: [fmt] is what the [fmt ] chunk gave, if
    one was read.  A chunk is its 4-byte name, its 4-byte size and its
    body, padded to an even length.  The answer is the format and the
    data chunk's declared size and available bytes. *)
Fixpoint chunks (fuel : nat) (fmt : option (Z * Z * Z)) (b : bytes)
  : option (Z * Z * Z * Z * bytes) :=
  match fuel with
  | O => None
  | S fuel' =>
      if (length b <? 8)%nat then None
      else
        let name := firstn 4 b in
        let size := le_value (firstn 4 (skipn 4 b)) in
        let rest := skipn 8 b in
        if decide (name = blit "fmt ") then
          match _read_fmt_chunk (firstn (Z.to_nat size) rest) with
          | None => None
          | Some f =>
              chunks fuel' (Some f)
                     (skipn (Z.to_nat (size + size mod 2)) rest)
          end
        else if decide (name = blit "data") then
          match fmt with
          | None => None
          | Some (nch, sw, rate) =>
              Some (nch, sw, rate, size, firstn (Z.to_nat size) rest)
          end
        else chunks fuel' fmt (skipn (Z.to_nat (size + size mod 2)) rest)
  end.

(** [wave.open(f, "rb")] followed by [readframes(getnframes())]: the
    parameters and the frame bytes, or [None] when the reader raises. *)
Definition read_wav (b : bytes) : option (params * bytes) :=
  if (length b <? 12)%nat then None
  else if decide (firstn 4 b = blit "RIFF") then
    let riffsize := le_value (firstn 4 (skipn 4 b)) in
    let body := firstn (Z.to_nat riffsize) (skipn 8 b) in
    if decide (firstn 4 body = blit "WAVE") then
      match chunks (length body) None (skipn 4 body) with
      | None => None
      | Some (nch, sw, rate, size, data) =>
          let framesize := nch * sw in
          let n := size / framesize in
          Some (mkParams nch sw rate n,
                firstn (Z.to_nat (n * framesize)) data)
      end
    else None
  else None.

(** The 44 bytes [_write_header] produces for one channel of 16-bit
    samples at 16 kHz and [datalength] bytes of frames. *)
Definition wav_header (datalength : Z) : bytes :=
  blit "RIFF" ++ le_bytes 4 (36 + datalength) ++ blit "WAVE" ++ blit "fmt "
  ++ le_bytes 4 16 ++ le_bytes 2 1 ++ le_bytes 2 1 ++ le_bytes 4 16000
  ++ le_bytes 4 32000 ++ le_bytes 2 2 ++ le_bytes 2 16 ++ blit "data"
  ++ le_bytes 4 datalength.

(** The writer once the three setters of [audio_to_wav_bytes] have run. *)
Definition configured : Wave_write :=
  mkW BytesIO.empty 1 2 16000 0 0 0 0 false 0 0.

End Wave.

(* ===================================================================== *)
(** ** numpy arrays of [int16] *)
(* ===================================================================== *)

Module Np.

(** A one-channel [int16] array, flattened: one [Z] per sample. *)
Abbreviation ndarray := (list Z).

Definition int16 (s : Z) : Prop := -32768 <= s <= 32767.

(** [a.tobytes()]: two bytes per sample, two's complement, low byte
    first. *)
Definition sample_bytes (s : Z) : bytes := le_bytes 2 (s mod 65536).

Definition tobytes (a : ndarray) : bytes := flat_map sample_bytes a.

(** [np.frombuffer(b, dtype="<i2")]: [None] when the length is odd. *)
Fixpoint frombuffer (b : bytes) : option ndarray :=
  match b with
  | [] => Some []
  | lo :: hi :: r =>
      let u := le_value [lo; hi] in
      let s := if u <? 32768 then u else u - 65536 in
      option_map (cons s) (frombuffer r)
  | _ => None
  end.

(** [np.concatenate(frames, axis=0)] *)
Definition concatenate (frames : list ndarray) : ndarray := concat frames.

End Np.

(* ===================================================================== *)
(** ** client/voice_notes.py *)
(* ===================================================================== *)

Module Client.

Definition SAMPLE_RATE : Z := 16000.

(** [audio_to_wav_bytes(audio)].  When [writeframes] raises, leaving the
    [with] block calls [close] as well, which packs the same header and
    raises the same error: the result is that exception either way. *)
Definition audio_to_wav_bytes (audio : Np.ndarray) : outcome bytes :=
  let buf := BytesIO.empty in
  let wf := Wave.open_wb buf in
  let* wf := Wave.setnchannels 1 wf in
  let* wf := Wave.setsampwidth 2 wf in
  let* wf := Wave.setframerate SAMPLE_RATE wf in
  let* wf := Wave.writeframes (Np.tobytes audio) wf in
  let* wf := Wave.close wf in
  let buf := BytesIO.seek 0 (Wave._file wf) in
  Ret (BytesIO.read buf).

(** Modelled from the spec: the repository has no decoder (the server
    hands the file to the recognition library), so [wav_bytes_to_audio]
    is the decoding the round-trip property speaks of: the standard
    reader of the container, giving the samples back as [int16]. *)
Definition wav_bytes_to_audio (b : bytes) : option Np.ndarray :=
  match Wave.read_wav b with
  | None => None
  | Some (_, frames) => Np.frombuffer frames
  end.

(** The sample count the container declares. *)
Definition wav_sample_count (b : bytes) : option Z :=
  match Wave.read_wav b with
  | None => None
  | Some (p, _) => Some (Wave.nframes p * Wave.nchannels p)
  end.

(** *** Configuration *)

Definition WHISPER_URL : str := lit "http://192.168.10.163:8090/transcribe".
Definition OLLAMA_URL : str := lit "http://192.168.10.163:11434/api/generate".
Definition OLLAMA_MODEL : str := lit "llama3.1:latest".
Definition OBSIDIAN_VAULT : str :=
  lit "C:\Users\SyncthingServiceAcct\mine\mine\Wiser\Voice Notes".

(** [MEETING_PROMPT] up to its only replacement field, [{transcript}],
    which ends the template. *)
Definition MEETING_PROMPT_lines : list str := [
  lit "You are a meeting notes formatter. Given a raw voice transcript, produce clean structured meeting notes in markdown. Include these sections only if relevant content exists:";
  lit "";
  lit "## Attendees";
  lit "- (list if mentioned)";
  lit "";
  lit "## Key Points";
  lit "- (main topics discussed)";
  lit "";
  lit "## Action Items";
  lit "- [ ] (tasks assigned, with owner if mentioned)";
  lit "";
  lit "## Decisions";
  lit "- (decisions made)";
  lit "";
  lit "## Notes";
  lit "- (anything else noteworthy)";
  lit "";
  lit "Keep it concise. Do not add information that wasn't in the transcript. If the transcript is short or informal, keep the notes proportionally brief.";
  lit "";
  lit "Raw transcript:";
  lit "" ].

(** [MEETING_PROMPT.format(transcript=transcript)] *)
Definition MEETING_PROMPT_format (transcript : str) : str :=
  join nl MEETING_PROMPT_lines ++ transcript.

(** *** The world the client runs in *)

(** The JSON object the transcription endpoint answers with, as the
    server builds it: [result["text"]], [result["language"]],
    [result["duration"]]. *)
Record result `{FloatOps} : Type := mkResult {
  text : str;
  language : str;
  duration : pyfloat
}.
Arguments mkResult {_} _ _ _.

(** [datetime.now()] *)
Record datetime : Type := mkDatetime {
  year : N; month : N; day : N; hour : N; minute : N;
  second : N; microsecond : N
}.

(** [now.strftime("%Y-%m-%d-%H%M")] *)
Definition strftime_filename (now : datetime) : str :=
  zfill 4 (str_of_N (year now)) ++ lit "-" ++ zfill 2 (str_of_N (month now))
  ++ lit "-" ++ zfill 2 (str_of_N (day now)) ++ lit "-"
  ++ zfill 2 (str_of_N (hour now)) ++ zfill 2 (str_of_N (minute now)).

(** [now.strftime("%Y-%m-%d %H:%M")] *)
Definition strftime_heading (now : datetime) : str :=
  zfill 4 (str_of_N (year now)) ++ lit "-" ++ zfill 2 (str_of_N (month now))
  ++ lit "-" ++ zfill 2 (str_of_N (day now)) ++ lit " "
  ++ zfill 2 (str_of_N (hour now)) ++ lit ":"
  ++ zfill 2 (str_of_N (minute now)).

(** What the client does to the outside, in order. *)
Inductive event : Type :=
| Print (line : str)
| Input (prompt : str)
| PostTranscribe (url : str) (filename : str) (wav_bytes : bytes)
                 (mime : str) (timeout : Z)
| PostGenerate (url : str) (model : str) (prompt : str) (stream : bool)
               (timeout : Z)
| Mkdir (dir : str)
| WriteText (path : str) (content : str).

Definition is_network_call (e : event) : bool :=
  match e with
  | PostTranscribe _ _ _ _ _ | PostGenerate _ _ _ _ _ => true
  | _ => false
  end.

(** The client's machine: the text files and directories of its disk and
    what it has done so far. *)
Record world : Type := mkWorld {
  files : gmap (list N) (list N);
  dirs : gset (list N);
  trace : list event
}.

(** What the outside answers during one pass of the loop: the line the
    operator types at the prompt, the frames the stream delivered to the
    callback while recording (or the exception opening the stream or
    waiting for Enter raised), the two HTTP exchanges (the parsed reply,
    or the exception [requests.post], [raise_for_status] or the parsing
    raised), the clock, and whether the disk accepts the two writes. *)
Record session `{FloatOps} : Type := mkSession {
  typed : outcome str;
  captured : outcome (list Np.ndarray);
  whisper_reply : outcome result;
  ollama_reply : outcome str;
  clock : datetime;
  mkdir_reply : outcome unit;
  write_reply : outcome unit
}.
Arguments mkSession {_} _ _ _ _ _ _ _.

(** Computations of the client: they change the world and return or
    raise. *)
Definition io (A : Type) : Type := world -> world * outcome A.

Definition io_ret {A} (a : A) : io A := fun w => (w, Ret a).

Definition io_bind {A B} (c : io A) (k : A -> io B) : io B :=
  fun w =>
    match c w with
    | (w', Ret a) => k a w'
    | (w', Raise e) => (w', Raise e)
    end.

(** An external call whose answer the session holds. *)
Definition answer {A} (r : outcome A) : io A := fun w => (w, r).

Definition emit (e : event) : io unit :=
  fun w => (mkWorld (files w) (dirs w) (trace w ++ [e]), Ret tt).

(** [try: body except Exception as e: handler(e)] *)
Definition try_except {A} (body : io A) (handler : exn -> io A) : io A :=
  fun w =>
    match body w with
    | (w', Ret a) => (w', Ret a)
    | (w', Raise e) => handler e w'
    end.

Notation "'let!' x ':=' c 'in' k" := (io_bind c (fun x => k))
  (at level 10, x pattern, c at level 100, k at level 200).

(** *** The functions of the client *)

Definition print (line : str) : io unit := emit (Print line).

(** [input(prompt)] *)
Definition input (prompt : str) (line : outcome str) : io str :=
  let! _ := emit (Input prompt) in
  answer line.

(** [record_audio()]: the callback appended one array per delivery to
    [frames] while [recording] was true. *)
Definition record_audio `{FloatOps} (s : session) : io Np.ndarray :=
  let! _ := print (nl ++ lit "  Recording... press Enter to stop." ++ nl) in
  let! frames := answer (captured s) in
  match frames with
  | [] => io_ret []
  | _ :: _ => io_ret (Np.concatenate frames)
  end.

(** [transcribe(wav_bytes)] *)
Definition transcribe `{FloatOps} (s : session) (wav_bytes : bytes)
  : io result :=
  let! _ := print (lit "  Transcribing...") in
  let! _ := emit (PostTranscribe WHISPER_URL (lit "recording.wav") wav_bytes
                                 (lit "audio/wav") 300) in
  answer (whisper_reply s).

(** [format_notes(transcript)] *)
Definition format_notes `{FloatOps} (s : session) (transcript : str)
  : io str :=
  let! _ := print (lit "  Formatting notes with LLM...") in
  let! _ := emit (PostGenerate OLLAMA_URL OLLAMA_MODEL
                               (MEETING_PROMPT_format transcript) false 120) in
  answer (ollama_reply s).

(** [OBSIDIAN_VAULT.mkdir(parents=True, exist_ok=True)] *)
Definition mkdir (d : str) (r : outcome unit) : io unit :=
  fun w =>
    match r with
    | Ret _ => (mkWorld (files w) ({[ d ]} ∪ dirs w) (trace w ++ [Mkdir d]),
                Ret tt)
    | Raise e => (mkWorld (files w) (dirs w) (trace w ++ [Mkdir d]), Raise e)
    end.

(** [filepath.write_text(content, encoding="utf-8")]: the file holds
    [content], replacing what it held.  When the disk refuses, the model
    leaves the file as it was. *)
Definition write_text (p content : str) (r : outcome unit) : io unit :=
  fun w =>
    match r with
    | Ret _ => (mkWorld (<[ p := content ]> (files w)) (dirs w)
                        (trace w ++ [WriteText p content]), Ret tt)
    | Raise e => (mkWorld (files w) (dirs w)
                          (trace w ++ [WriteText p content]), Raise e)
    end.

Definition note_filename (now : datetime) : str :=
  strftime_filename now ++ lit "-meeting-notes.md".

(** The f-string [content] of [save_notes]. *)
Definition note_content `{FloatOps} (now : datetime)
           (formatted transcript : str) (duration : pyfloat) : str :=
  lit "# Meeting Notes - " ++ strftime_heading now ++ nl
  ++ nl
  ++ lit "> Duration: " ++ str_of_float duration
  ++ lit "s | Transcribed with Whisper + llama3.1" ++ nl
  ++ nl
  ++ formatted ++ nl
  ++ nl
  ++ lit "---" ++ nl
  ++ nl
  ++ lit "<details>" ++ nl
  ++ lit "<summary>Raw Transcript</summary>" ++ nl
  ++ nl
  ++ transcript ++ nl
  ++ nl
  ++ lit "</details>" ++ nl.

(** [save_notes(formatted, transcript, duration)] *)
Definition save_notes `{FloatOps} `{Platform} (s : session)
           (formatted transcript : str) (duration : pyfloat) : io str :=
  let! _ := mkdir OBSIDIAN_VAULT (mkdir_reply s) in
  let now := clock s in
  let filename := note_filename now in
  let filepath := path_join OBSIDIAN_VAULT filename in
  let content := note_content now formatted transcript duration in
  let! _ := write_text filepath content (write_reply s) in
  io_ret filepath.

(** The second line printed after a transcription:
    [f"  {transcript[:200]}{'...' if len(transcript) > 200 else ''}\n"]. *)
Definition preview (transcript : str) : str :=
  lit "  " ++ firstn 200 transcript
  ++ (if (200 <? length transcript)%nat then lit "..." else lit "") ++ nl.

(** The three [except] clauses of the loop, in their order. *)
Definition handler (e : exn) : io unit :=
  match e with
  | ConnectionError _ =>
      print (lit "  ERROR: Cannot reach server. Is the Whisper server running?")
  | HTTPError status_code body _ =>
      print (lit "  ERROR: Server returned " ++ str_of_Z status_code
             ++ lit ": " ++ body)
  | Exception _ =>
      print (lit "  ERROR: " ++ str_of_exn e)
  end.

(** The line each clause prints. *)
Definition error_line (e : exn) : str :=
  match e with
  | ConnectionError _ =>
      lit "  ERROR: Cannot reach server. Is the Whisper server running?"
  | HTTPError status_code body _ =>
      lit "  ERROR: Server returned " ++ str_of_Z status_code
      ++ lit ": " ++ body
  | Exception m => lit "  ERROR: " ++ m
  end.

(** How one pass of [while True] ends when nothing escapes it. *)
Inductive control : Type := Continue | Break.

(** The body of the [try] of the loop. *)
Definition attempt `{FloatOps} `{Platform} (s : session)
           (wav_bytes : bytes) : io unit :=
  let! result := transcribe s wav_bytes in
  let transcript := text result in
  let! _ := print (nl ++ lit "  Transcript (" ++ language result
                   ++ lit ", " ++ str_of_float (duration result)
                   ++ lit "s):") in
  let! _ := print (preview transcript) in
  let! formatted := format_notes s transcript in
  let! filepath := save_notes s formatted transcript (duration result) in
  print (lit "  Saved to: " ++ filepath).

(** The body of the loop of [main]. *)
Definition iteration `{FloatOps} `{Platform} (s : session) : io control :=
  let! _ := print (nl ++ lit "  Press Enter to start recording (or 'q' to quit):") in
  let! line := input (lit "  > ") (typed s) in
  let choice := lower (strip line) in
  if decide (choice = lit "q") then
    let! _ := print (lit "  Bye!") in
    io_ret Break
  else
    let! audio := record_audio s in
    if Z.of_nat (length audio) =? 0 then
      let! _ := print (lit "  No audio captured, try again.") in
      io_ret Continue
    else
      let duration_sec :=
        py_round (float_div (Z.of_nat (length audio)) SAMPLE_RATE) 1 in
      let! _ := print (lit "  Captured " ++ str_of_float duration_sec
                       ++ lit "s of audio.") in
      let! wav_bytes := answer (audio_to_wav_bytes audio) in
      let! _ := try_except (attempt s wav_bytes) handler in
      io_ret Continue.

(** Where a run of the client stands once the sessions it was given are
    used up: it left the loop on [q], or it is back at the top of the
    loop, about to prompt. *)
Inductive status : Type := Exited | AtPrompt.

(** [while True:] over the sessions that take place.  An exception that
    escapes an iteration ends the process: it is the [Raise] of the
    result. *)
Fixpoint main_loop `{FloatOps} `{Platform} (script : list session)
  : io status :=
  match script with
  | [] => io_ret AtPrompt
  | s :: rest =>
      let! c := iteration s in
      match c with
      | Break => io_ret Exited
      | Continue => main_loop rest
      end
  end.

(** [main()] *)
Definition main `{FloatOps} `{Platform} (script : list session)
  : io status :=
  let! _ := print (repeat 61%N 50) in
  let! _ := print (lit "  Voice Notes Recorder") in
  let! _ := print (repeat 61%N 50) in
  let! _ := print (lit "  Whisper: " ++ WHISPER_URL) in
  let! _ := print (lit "  Ollama:  " ++ OLLAMA_MODEL) in
  let! _ := print (lit "  Output:  " ++ OBSIDIAN_VAULT) in
  main_loop script.

Definition initial : world := mkWorld ∅ ∅ [].

(** *** Vocabulary of the statements *)

(** The operator starts a recording (the line typed is not [q]), the
    stream delivers [frames] holding at least one sample, and they fit
    the container [wav_bytes]: the loop reaches its [try]. *)
Definition records `{FloatOps} (s : session) (frames : list Np.ndarray)
           (wav_bytes : bytes) : Prop :=
  (exists line, typed s = Ret line /\ lower (strip line) <> lit "q")
  /\ captured s = Ret frames
  /\ Np.concatenate frames <> []
  /\ audio_to_wav_bytes (Np.concatenate frames) = Ret wav_bytes.

(** A completed recording: both services answer and the disk takes the
    note. *)
Definition completes `{FloatOps} (s : session) (frames : list Np.ndarray)
           (wav_bytes : bytes) (r : result) (formatted : str) : Prop :=
  records s frames wav_bytes
  /\ whisper_reply s = Ret r
  /\ ollama_reply s = Ret formatted
  /\ mkdir_reply s = Ret tt
  /\ write_reply s = Ret tt.

(** The first exception raised inside the [try], if any. *)
Definition first_failure `{FloatOps} (s : session) : option exn :=
  match whisper_reply s with
  | Raise e => Some e
  | Ret _ =>
      match ollama_reply s with
      | Raise e => Some e
      | Ret _ =>
          match mkdir_reply s with
          | Raise e => Some e
          | Ret _ =>
              match write_reply s with
              | Raise e => Some e
              | Ret _ => None
              end
          end
      end
  end.

(** Every transcription request made so far carries a container that
    declares at least one sample. *)
Definition nonempty_upload (e : event) : Prop :=
  match e with
  | PostTranscribe _ _ wav_bytes _ _ =>
      exists n, wav_sample_count wav_bytes = Some n /\ 0 < n
  | _ => True
  end.

(** Two clock readings in the same minute. *)
Definition same_minute (a b : datetime) : Prop :=
  year a = year b /\ month a = month b /\ day a = day b
  /\ hour a = hour b /\ minute a = minute b.

(** The path [save_notes] writes at [now]. *)
Definition note_path `{Platform} (now : datetime) : str :=
  path_join OBSIDIAN_VAULT (note_filename now).

(** What follows [formatted] in the note: the rule and the collapsible
    section around the raw transcript. *)
Definition details_section (transcript : str) : str :=
  nl ++ nl ++ lit "---" ++ nl ++ nl
  ++ lit "<details>" ++ nl
  ++ lit "<summary>Raw Transcript</summary>" ++ nl ++ nl
  ++ transcript ++ nl ++ nl
  ++ lit "</details>" ++ nl.

(** The metadata line of the note for a duration. *)
Definition metadata_line `{FloatOps} (d : pyfloat) : str :=
  lit "> Duration: " ++ str_of_float d
  ++ lit "s | Transcribed with Whisper + llama3.1".

(** The duration the client computes from the capture:
    [round(len(audio) / SAMPLE_RATE, 1)]. *)
Definition duration_sec `{FloatOps} (audio : Np.ndarray) : pyfloat :=
  py_round (float_div (Z.of_nat (length audio)) SAMPLE_RATE) 1.

(** The world once [evs] have taken place, the disk unchanged. *)
Definition after (w : world) (evs : list event) : world :=
  mkWorld (files w) (dirs w) (trace w ++ evs).

(** What a pass of the loop does before its [try], on a capture that
    gave [audio]. *)
Definition opening `{FloatOps} (audio : Np.ndarray) : list event :=
  [ Print (nl ++ lit "  Press Enter to start recording (or 'q' to quit):");
    Input (lit "  > ");
    Print (nl ++ lit "  Recording... press Enter to stop." ++ nl);
    Print (lit "  Captured " ++ str_of_float (duration_sec audio)
           ++ lit "s of audio.") ].

(** What it does on an empty capture. *)
Definition empty_pass : list event :=
  [ Print (nl ++ lit "  Press Enter to start recording (or 'q' to quit):");
    Input (lit "  > ");
    Print (nl ++ lit "  Recording... press Enter to stop." ++ nl);
    Print (lit "  No audio captured, try again.") ].

(** The two exchanges of a pass in which both services answer. *)
Definition exchange `{FloatOps} (wav_bytes : bytes) (r : result)
  : list event :=
  [ Print (lit "  Transcribing...");
    PostTranscribe WHISPER_URL (lit "recording.wav") wav_bytes
                   (lit "audio/wav") 300;
    Print (nl ++ lit "  Transcript (" ++ language r ++ lit ", "
           ++ str_of_float (duration r) ++ lit "s):");
    Print (preview (text r));
    Print (lit "  Formatting notes with LLM...");
    PostGenerate OLLAMA_URL OLLAMA_MODEL (MEETING_PROMPT_format (text r))
                 false 120 ].

(** The writing of the note that follows them. *)
Definition saving `{FloatOps} `{Platform} (now : datetime) (r : result)
           (formatted : str) : list event :=
  [ Mkdir OBSIDIAN_VAULT;
    WriteText (note_path now)
              (note_content now formatted (text r) (duration r));
    Print (lit "  Saved to: " ++ note_path now) ].

End Client.

(* ===================================================================== *)
(** ** server/whisper_server.py *)
(* ===================================================================== *)

Module Server.

(** The server's disk: the bytes of each file. *)
Abbreviation disk := (gmap (list N) (list byte)).

(** What the recognition library gives back: [segment.text] for each
    segment, [info.language] and [info.duration]. *)
Record Segment : Type := mkSegment { text : str }.

Record TranscriptionInfo `{FloatOps} : Type := mkInfo {
  language : str;
  duration : pyfloat
}.
Arguments mkInfo {_} _ _.

(** [segments] is a generator: it yields its segments when the handler
    iterates it, and may raise at its end instead of stopping. *)
Record generator : Type := mkGenerator {
  yielded : list Segment;
  failure : option exn
}.

(** What the outside answers during one request: the name the upload
    came with, the random names [tempfile] draws (or the exception
    [mkstemp] raised), the uploaded bytes, whether the disk takes them,
    and the recognition library.  The library runs outside the handler:
    it is given the path and the beam size, sees the disk and may leave
    it changed, as anything else running on the host meanwhile may. *)
Record request `{FloatOps} : Type := mkRequest {
  filename : option str;
  temp_names : outcome (list str);
  audio_read : outcome bytes;
  tmp_write : outcome unit;
  model_transcribe :
    str -> Z -> disk -> disk * outcome (generator * TranscriptionInfo)
}.
Arguments mkRequest {_} _ _ _ _ _.

Definition FileExistsError : exn :=
  Exception (lit "[Errno 17] No usable temporary file name found").

Definition FileNotFoundError (p : str) : exn :=
  Exception (lit "[Errno 2] No such file or directory: '" ++ p ++ lit "'").

(** The loop of [tempfile._mkstemp_inner]: the first name that is free. *)
Fixpoint first_free `{Platform} (suffix : str) (names : list str)
         (fs : disk) : outcome str :=
  match names with
  | [] => Raise FileExistsError
  | name :: rest =>
      let file := path_join gettempdir (lit "tmp" ++ name ++ suffix) in
      match fs !! file with
      | Some _ => first_free suffix rest fs
      | None => Ret file
      end
  end.

(** [tempfile.mkstemp(suffix=suffix)]: creates the file, empty, and
    returns its path (the descriptor is the open file itself). *)
Definition mkstemp `{Platform} (suffix : str) (names : outcome (list str))
           (fs : disk) : disk * outcome str :=
  match (let* ns := names in first_free suffix ns fs) with
  | Ret file => (<[ file := [] ]> fs, Ret file)
  | Raise e => (fs, Raise e)
  end.

(** [with open(fd, "wb") as tmp: tmp.write(content)] *)
Definition write_tmp (r : outcome unit) (file : str) (content : bytes)
           (fs : disk) : disk * outcome unit :=
  match r with
  | Ret _ => (<[ file := content ]> fs, Ret tt)
  | Raise e => (fs, Raise e)
  end.

(** [Path(p).unlink(missing_ok=...)] *)
Definition unlink (missing_ok : bool) (p : str) (fs : disk)
  : disk * outcome unit :=
  match fs !! p with
  | Some _ => (delete p fs, Ret tt)
  | None => if missing_ok then (fs, Ret tt)
            else (fs, Raise (FileNotFoundError p))
  end.

(** Iterating the generator to its end. *)
Definition consume (g : generator) : outcome (list Segment) :=
  match failure g with
  | None => Ret (yielded g)
  | Some e => Raise e
  end.

(** The dictionary the handler returns. *)
Record transcript `{FloatOps} : Type := mkTranscript {
  t_text : str;
  t_language : str;
  t_duration : pyfloat
}.
Arguments mkTranscript {_} _ _ _.

(** The body of the [try]: the disk it leaves, the value of [tmp_path]
    when it ends, and what it returned or raised. *)
Definition try_body `{FloatOps} `{Platform} (rq : request) (suffix : str)
           (fs : disk) : disk * option str * outcome transcript :=
  match mkstemp suffix (temp_names rq) fs with
  | (fs1, Raise e) => (fs1, None, Raise e)
  | (fs1, Ret tmp_path) =>
      match audio_read rq with
      | Raise e => (fs1, Some tmp_path, Raise e)
      | Ret content =>
          match write_tmp (tmp_write rq) tmp_path content fs1 with
          | (fs2, Raise e) => (fs2, Some tmp_path, Raise e)
          | (fs2, Ret _) =>
              match model_transcribe rq tmp_path 5 fs2 with
              | (fs3, Raise e) => (fs3, Some tmp_path, Raise e)
              | (fs3, Ret (segments, info)) =>
                  (fs3, Some tmp_path,
                   let* segs := consume segments in
                   let text := join (lit " ") (map (fun segment => strip (text segment)) segs) in
                   Ret (mkTranscript text (language info)
                                     (py_round (duration info) 2)))
              end
          end
      end
  end.

(** How a call of the handler ends. *)
Inductive completion `{FloatOps} : Type :=
| Return (value : transcript)
| RaiseHTTPException (status_code : Z) (detail : str)
| RaiseOther (e : exn).

(** [Path(audio.filename).suffix if audio.filename else ".wav"] *)
Definition upload_suffix `{FloatOps} `{Platform} (rq : request) : str :=
  match filename rq with
  | Some (c :: n) => path_suffix (c :: n)
  | _ => lit ".wav"
  end.

(** [transcribe(audio)], the handler of [POST /transcribe]. *)
Definition transcribe `{FloatOps} `{Platform} (rq : request) (fs : disk)
  : disk * completion :=
  let suffix := upload_suffix rq in
  (* try *)
  let '(fs1, tmp_path, r) := try_body rq suffix fs in
  (* except Exception as e: raise HTTPException(status_code=500, detail=str(e)) *)
  let r1 :=
    match r with
    | Ret v => Return v
    | Raise e => RaiseHTTPException 500 (str_of_exn e)
    end in
  (* finally: if tmp_path: Path(tmp_path).unlink(missing_ok=True) *)
  match tmp_path with
  | Some (c :: p) =>
      match unlink true (c :: p) fs1 with
      | (fs2, Ret _) => (fs2, r1)
      | (fs2, Raise e) => (fs2, RaiseOther e)
      end
  | _ => (fs1, r1)
  end.

(** The path of the temporary file of a request, when one was created. *)
Definition created `{FloatOps} `{Platform} (rq : request) (fs : disk)
  : option str :=
  match mkstemp (upload_suffix rq) (temp_names rq) fs with
  | (_, Ret file) => Some file
  | (_, Raise _) => None
  end.

(** What the web framework sends for each way the handler ends. *)
Inductive json `{FloatOps} : Type :=
| JString (s : str)
| JNumber (x : pyfloat).

Inductive body `{FloatOps} : Type :=
| JsonObject (fields : list (string * json))
| PlainText (s : str).

Record http_response `{FloatOps} : Type := mkResponse {
  status : Z;
  content : body
}.
Arguments mkResponse {_} _ _.

Definition respond `{FloatOps} (c : completion) : http_response :=
  match c with
  | Return v =>
      mkResponse 200 (JsonObject [("text"%string, JString (t_text v));
                                  ("language"%string, JString (t_language v));
                                  ("duration"%string, JNumber (t_duration v))])
  | RaiseHTTPException status_code detail =>
      mkResponse status_code (JsonObject [("detail"%string, JString detail)])
  | RaiseOther _ =>
      mkResponse 500 (PlainText (lit "Internal Server Error"))
  end.


End Server.

(* ===================================================================== *)
(** ** A host to run the model on *)
(* ===================================================================== *)

(** The theorems hold for every [FloatOps] and [Platform].  To run the
  programs on examples, [Millis] stands in for the floats (decimal fixed
  point, three places, [x] standing for [x / 1000]) and [Windows] for
  the host. *)
Module Millis.

Definition div (a b : Z) : Z := (a * 1000) / b.

(** To the nearest multiple of [unit], ties to the even one. *)
Definition round_to (unit x : Z) : Z :=
  let q := x / unit in
  let r := x mod unit in
  if 2 * r <? unit then q * unit
  else if unit <? 2 * r then (q + 1) * unit
  else if Z.even q then q * unit else (q + 1) * unit.

Definition round (x n : Z) : Z :=
  if n <? 3 then round_to (10 ^ (3 - n)) x else x.

Fixpoint drop_zeros (s : str) : str :=
  match s with
  | 48%N :: r => drop_zeros r
  | _ => s
  end.

Definition to_str (x : Z) : str :=
  let a := Z.abs x in
  let frac := rev (drop_zeros (rev (zfill 3 (str_of_Z (a mod 1000))))) in
  (if x <? 0 then lit "-" else lit "")
  ++ str_of_Z (a / 1000) ++ lit "."
  ++ (match frac with [] => lit "0" | _ => frac end).

Definition ops : FloatOps :=
  {| pyfloat := Z; float_div := div; py_round := round;
     str_of_float := to_str |}.

End Millis.

Module Windows.

(** The suffix of a plain file name: from its last dot on, unless the
    name starts or ends there. *)
Fixpoint after_last_dot (acc : option str) (s : str) : option str :=
  match s with
  | [] => acc
  | c :: r =>
      if (c =? 46)%N then after_last_dot (Some r) r
      else after_last_dot acc r
  end.

Definition suffix (name : str) : str :=
  match name with
  | [] => []
  | c :: r =>
      match after_last_dot None r with
      | Some (d :: ext) => 46%N :: d :: ext
      | _ => []
      end
  end.

Definition host : Platform :=
  {| os_sep := lit "\"; path_suffix := suffix;
     gettempdir := lit "C:\Windows\Temp" |}.

End Windows.

(* ===================================================================== *)
(** ** Sample runs *)
(* ===================================================================== *)

Module Examples.

Import Client.

#[local] Existing Instance Millis.ops.
#[local] Existing Instance Windows.host.

Definition morning : datetime := mkDatetime 2024 3 7 9 5 12 0.
Definition same_morning : datetime := mkDatetime 2024 3 7 9 5 48 250000.

Definition frames : list Np.ndarray := [[1; -2]; [3]].
Definition wav_bytes : bytes := Wave.wav_header 6 ++ Np.tobytes [1; -2; 3].

Definition reply : result := mkResult (lit "hello") (lit "en") 2500.
Definition notes : str := lit "## Key Points" ++ nl ++ lit "- x".

(** A recording that completes. *)
Definition recording : session :=
  mkSession (Ret (lit "")) (Ret frames) (Ret reply) (Ret notes) morning
            (Ret tt) (Ret tt).


(** The operator stops at once: the callback was never called. *)
Definition silence : session :=
  mkSession (Ret (lit "")) (Ret []) (Ret reply) (Ret notes) morning
            (Ret tt) (Ret tt).



(** A request the model answers with two segments. *)
Definition upload : bytes := wav_bytes.
Definition heard : Server.generator :=
  Server.mkGenerator [Server.mkSegment (lit " Hello there.");
                      Server.mkSegment (lit " General notes. ")] None.
Definition request : Server.request :=
  Server.mkRequest (Some (lit "recording.wav")) (Ret [lit "k3x0_q1a"])
                   (Ret upload) (Ret tt)
                   (fun path beam_size fs =>
                      (fs, Ret (heard, Server.mkInfo (lit "en") 2468))).
Definition tmp_path : str := lit "C:\Windows\Temp\tmpk3x0_q1a.wav".


End Examples.

(* ===================================================================== *)
(** ** Further vocabulary *)
(* ===================================================================== *)

Module Terms.

Import Client.

(** What a pass does when the operator quits. *)
Definition quit_pass : list event :=
  [ Print (nl ++ lit "  Press Enter to start recording (or 'q' to quit):");
    Input (lit "  > ");
    Print (lit "  Bye!") ].

(** The transcription request for a container, and the formatting request
    for a transcript, as [transcribe] and [format_notes] make them. *)
Definition upload_of (wav_bytes : bytes) : event :=
  PostTranscribe WHISPER_URL (lit "recording.wav") wav_bytes
                 (lit "audio/wav") 300.

Definition generate_of (transcript : str) : event :=
  PostGenerate OLLAMA_URL OLLAMA_MODEL (MEETING_PROMPT_format transcript)
               false 120.

(** The network calls among some events, in their order. *)
Definition requests (evs : list event) : list event :=
  List.filter is_network_call evs.

(** The ranges [datetime] keeps its fields in. *)
Definition valid_datetime (d : datetime) : Prop :=
  (1 <= year d <= 9999 /\ 1 <= month d <= 12 /\ 1 <= day d <= 31
   /\ hour d <= 23 /\ minute d <= 59 /\ second d <= 59
   /\ microsecond d <= 999999)%N.

(** Reading a run of decimal digits back. *)
Definition parse_digits (s : str) : N :=
  fold_left (fun acc c => (acc * 10 + (c - 48))%N) s 0%N.


End Terms.

(* ===================================================================== *)
(** ** Further sample runs *)
(* ===================================================================== *)

Module Scenarios.
Import Client.
#[local] Existing Instance Millis.ops.
#[local] Existing Instance Windows.host.

(** The operator types a capital q between blanks. *)
Definition leaving : session :=
  mkSession (Ret (lit " Q ")) (Ret Examples.frames) (Ret Examples.reply)
            (Ret Examples.notes) Examples.morning (Ret tt) (Ret tt).

(** The text-generation service cannot be reached. *)
Definition unformatted : session :=
  mkSession (Ret (lit "")) (Ret Examples.frames) (Ret Examples.reply)
            (Raise (ConnectionError (lit "Connection refused")))
            Examples.morning (Ret tt) (Ret tt).

(** A disk that already holds a file of the operator's. *)
Definition diary : str := lit "C:\Users\SyncthingServiceAcct\diary.md".
Definition desk : world :=
  mkWorld {[ diary := lit "Dear diary" ]} ∅ [].



End Scenarios.

(* ===================================================================== *)
(** ** Tactics *)
(* ===================================================================== *)

Import Client.
Import Terms.

(** Run the [io] primitives of a goal on the world they are applied to. *)
Ltac io_step :=
  cbv beta iota zeta
      delta [io_bind io_ret print emit answer input try_except];
  cbn [files dirs trace fst snd].

(** Unfold the body of the [try] down to the replies of the session. *)
Ltac run_attempt :=
  unfold attempt, transcribe, format_notes, save_notes, mkdir, write_text;
  cbv beta iota zeta delta [io_bind io_ret print emit answer];
  cbn [files dirs trace].

(** A sample session reaches its [try]: the operator typed an empty line,
    and the rest is computed. *)
Ltac sample_records :=
  split; [|split; [|split]];
  [ exists (lit ""); split; [reflexivity | vm_compute; discriminate]
  | reflexivity
  | vm_compute; discriminate
  | vm_compute; reflexivity ].

(* ===================================================================== *)
(** * Properties *)
(* ===================================================================== *)

(** ** The audio container *)

Lemma Z_of_byte_of_Z z : Z_of_byte (byte_of_Z z) = z mod 256.
Proof.
unfold Z_of_byte, byte_of_Z.
assert (Hr : 0 <= z mod 256 < 256) by (apply Z.mod_pos_bound; lia).
destruct (Byte.of_N (Z.to_N (z mod 256))) as [b|] eqn:E.
- apply Byte.to_of_N in E. rewrite E. lia.
- apply Byte.of_N_None_iff in E. lia.
Qed.

Lemma le_value_le_bytes k v :
0 <= v < 256 ^ Z.of_nat k -> le_value (le_bytes k v) = v.
Proof.
revert v. induction k as [|k IH]; intros v Hv.
- simpl in *. lia.
- cbn [le_bytes le_value]. rewrite Z_of_byte_of_Z.
  rewrite IH.
  + pose proof (Z.div_mod v 256). lia.
  + rewrite Nat2Z.inj_succ, Z.pow_succ_r in Hv by lia.
    split; [apply Z.div_pos; lia | apply Z.div_lt_upper_bound; lia].
Qed.

Lemma length_le_bytes k v : length (le_bytes k v) = k.
Proof. revert v. induction k; intros; simpl; auto. Qed.

Lemma length_tobytes a : length (Np.tobytes a) = (2 * length a)%nat.
Proof.
induction a as [|s a IH]; [reflexivity|].
unfold Np.tobytes in *. cbn [flat_map]. rewrite length_app, IH.
unfold Np.sample_bytes. rewrite length_le_bytes. simpl. lia.
Qed.

Lemma pack_L_ok v : 0 <= v <= 4294967295 -> pack_L v = Ret (le_bytes 4 v).
Proof.
intros H. unfold pack_L.
replace (0 <=? v) with true by (symmetry; apply Z.leb_le; lia).
replace (v <=? 4294967295) with true by (symmetry; apply Z.leb_le; lia).
reflexivity.
Qed.

Lemma pack_L_overflow v :
4294967295 < v -> pack_L v = Raise (struct_error "'L'" 4294967295).
Proof.
intros H. unfold pack_L.
replace (v <=? 4294967295) with false by (symmetry; apply Z.leb_gt; lia).
rewrite andb_false_r. reflexivity.
Qed.

Lemma write_at_end b f :
BytesIO.at_end f ->
BytesIO.at_end (BytesIO.write b f) /\
BytesIO.buf (BytesIO.write b f) = BytesIO.buf f ++ b.
Proof.
unfold BytesIO.at_end, BytesIO.write. intros E. cbn [BytesIO.buf BytesIO.pos].
rewrite E, firstn_all, Nat.sub_diag, skipn_all2 by lia.
cbn [repeat app]. rewrite app_nil_r. split; [|reflexivity].
rewrite length_app. reflexivity.
Qed.

Lemma pack_H_ok v : 0 <= v <= 65535 -> pack_H v = Ret (le_bytes 2 v).
Proof.
intros H. unfold pack_H.
replace (0 <=? v) with true by (symmetry; apply Z.leb_le; lia).
replace (v <=? 65535) with true by (symmetry; apply Z.leb_le; lia).
reflexivity.
Qed.

Lemma write_header_ok L :
0 <= L -> L mod 2 = 0 -> 36 + L <= 4294967295 ->
exists f flp dlp,
  Wave._write_header L Wave.configured
  = Ret (Wave.mkW f 1 2 16000 (L / 2) 0 0 L true flp dlp)
  /\ BytesIO.at_end f /\ BytesIO.buf f = Wave.wav_header L.
Proof.
intros H0 Hev Hfit.
unfold Wave._write_header, Wave.configured.
cbn [Wave._nframes Wave._nchannels Wave._sampwidth Wave._framerate
     Wave._file Wave._nframeswritten Wave._datawritten].
change (0 =? 0) with true. cbv iota.
change (1 * 2) with 2. change (1 * 16000 * 2) with 32000.
change (2 * 8) with 16. unfold Wave.WAVE_FORMAT_PCM.
replace (L / 2 * 1 * 2) with L by (Z.to_euclidean_division_equations; lia).
rewrite !pack_L_ok, !pack_H_ok by lia.
cbn [bind].
destruct (write_at_end (blit "RIFF") BytesIO.empty eq_refl) as [E1 B1].
match goal with |- context [BytesIO.write ?b (BytesIO.write (blit "RIFF") _)] =>
  destruct (write_at_end b _ E1) as [E2 B2] end.
match goal with |- context [BytesIO.write (le_bytes 4 L) ?f] =>
  destruct (write_at_end (le_bytes 4 L) f E2) as [E3 B3] end.
eexists _, _, _. split; [reflexivity|]. split; [exact E3|].
rewrite B3, B2, B1. unfold Wave.wav_header.
cbn [BytesIO.buf BytesIO.empty app]. rewrite <- !app_assoc. reflexivity.
Qed.

Lemma write_header_overflow L :
0 <= L -> L mod 2 = 0 -> 4294967295 < 36 + L ->
Wave._write_header L Wave.configured = Raise (struct_error "'L'" 4294967295).
Proof.
intros H0 Hev Hbig.
unfold Wave._write_header, Wave.configured.
cbn [Wave._nframes Wave._nchannels Wave._sampwidth Wave._framerate
     Wave._file Wave._nframeswritten Wave._datawritten].
change (0 =? 0) with true. cbv iota. change (1 * 2) with 2.
replace (L / 2 * 1 * 2) with L by (Z.to_euclidean_division_equations; lia).
rewrite pack_L_overflow by lia. reflexivity.
Qed.

Lemma audio_to_wav_bytes_unfold audio :
audio_to_wav_bytes audio
= let* wf := Wave.writeframes (Np.tobytes audio) Wave.configured in
  let* wf := Wave.close wf in
  Ret (BytesIO.buf (Wave._file wf)).
Proof. reflexivity. Qed.

Lemma tobytes_even audio :
let L := Z.of_nat (length (Np.tobytes audio)) in
L = 2 * Z.of_nat (length audio) /\ 0 <= L /\ L mod 2 = 0.
Proof.
cbv zeta. rewrite length_tobytes.
repeat split; try lia. rewrite Nat2Z.inj_mul. change (Z.of_nat 2) with 2.
rewrite Z.mul_comm. apply Z.mod_mul. lia.
Qed.

Lemma audio_to_wav_bytes_ok audio :
36 + 2 * Z.of_nat (length audio) <= 4294967295 ->
audio_to_wav_bytes audio
= Ret (Wave.wav_header (2 * Z.of_nat (length audio)) ++ Np.tobytes audio).
Proof.
intros Hfit. rewrite audio_to_wav_bytes_unfold.
destruct (tobytes_even audio) as (HL & HL0 & HLev).
set (L := Z.of_nat (length (Np.tobytes audio))) in *.
destruct (write_header_ok L) as (f & flp & dlp & Hw & Hend & Hbuf);
  [lia .. |].
unfold Wave.writeframes, Wave.writeframesraw.
fold L.
change (Wave._ensure_header_written L Wave.configured) with (Wave._write_header L Wave.configured).
rewrite Hw. cbn [bind Wave._sampwidth Wave._nchannels Wave._file
                 Wave._framerate Wave._nframes Wave._nframeswritten
                 Wave._datawritten Wave._datalength Wave._headerwritten
                 Wave._form_length_pos Wave._data_length_pos].
rewrite Z.add_0_l, Z.eqb_refl. cbn [negb bind].
unfold Wave.close, Wave._ensure_header_written.
cbn [bind negb Wave._headerwritten Wave._datalength Wave._datawritten
     Wave._file].
rewrite Z.eqb_refl. cbn [negb bind Wave._file].
destruct (write_at_end (Np.tobytes audio) f Hend) as [_ ->].
rewrite Hbuf, <- HL. reflexivity.
Qed.

Lemma audio_to_wav_bytes_too_long audio :
4294967295 < 36 + 2 * Z.of_nat (length audio) ->
audio_to_wav_bytes audio = Raise (struct_error "'L'" 4294967295).
Proof.
intros Hbig. rewrite audio_to_wav_bytes_unfold.
destruct (tobytes_even audio) as (HL & HL0 & HLev).
set (L := Z.of_nat (length (Np.tobytes audio))) in *.
unfold Wave.writeframes, Wave.writeframesraw. fold L.
change (Wave._ensure_header_written L Wave.configured) with (Wave._write_header L Wave.configured).
rewrite write_header_overflow by lia. reflexivity.
Qed.

Lemma take_le_bytes k v r : firstn k (le_bytes k v ++ r) = le_bytes k v.
Proof.
rewrite <- (length_le_bytes k v) at 1. rewrite firstn_app, Nat.sub_diag, firstn_all.
cbn [firstn]. destruct r; apply app_nil_r.
Qed.

Lemma drop_le_bytes k v r : skipn k (le_bytes k v ++ r) = r.
Proof.
rewrite <- (length_le_bytes k v) at 1. rewrite skipn_app, Nat.sub_diag, skipn_all.
reflexivity.
Qed.

Lemma frombuffer_tobytes a :
Forall Np.int16 a -> Np.frombuffer (Np.tobytes a) = Some a.
Proof.
induction 1 as [|s a Hs _ IH]; [reflexivity|].
unfold Np.tobytes in *. cbn [flat_map]. unfold Np.sample_bytes at 1.
cbn [le_bytes app Np.frombuffer]. rewrite IH. cbn [option_map].
change [byte_of_Z (s mod 65536); byte_of_Z (s mod 65536 / 256)]
  with (le_bytes 2 (s mod 65536)).
rewrite le_value_le_bytes
  by (change (256 ^ Z.of_nat 2) with 65536; apply Z.mod_pos_bound; lia).
unfold Np.int16 in Hs. f_equal. f_equal.
destruct (s mod 65536 <? 32768) eqn:E;
  [apply Z.ltb_lt in E | apply Z.ltb_ge in E];
  Z.to_euclidean_division_equations; lia.
Qed.

Lemma wav_header_split L :
Wave.wav_header L
= blit "RIFF" ++ le_bytes 4 (36 + L) ++ blit "WAVE"
  ++ blit "fmt " ++ le_bytes 4 16
  ++ (le_bytes 2 1 ++ le_bytes 2 1 ++ le_bytes 4 16000
      ++ le_bytes 4 32000 ++ le_bytes 2 2 ++ le_bytes 2 16)
  ++ blit "data" ++ le_bytes 4 L.
Proof. unfold Wave.wav_header. rewrite <- !app_assoc. reflexivity. Qed.

Lemma le_value_le_bytes_4 v :
0 <= v <= 4294967295 -> le_value (le_bytes 4 v) = v.
Proof.
intros. apply le_value_le_bytes. change (256 ^ Z.of_nat 4) with 4294967296. lia.
Qed.

Lemma chunks_fmt fuel fmt size body rest :
0 <= size <= 4294967295 -> size mod 2 = 0 ->
length body = Z.to_nat size ->
Wave.chunks (S fuel) fmt (blit "fmt " ++ le_bytes 4 size ++ body ++ rest)
= match Wave._read_fmt_chunk body with
  | None => None
  | Some f => Wave.chunks fuel (Some f) rest
  end.
Proof.
intros Hsize Hev Hlen.
set (X := le_bytes 4 size ++ body ++ rest).
assert (HX : (4 <= length X)%nat)
  by (unfold X; rewrite length_app, length_le_bytes; lia).
change (blit "fmt " ++ X)
  with ("f"%byte :: "m"%byte :: "t"%byte :: " "%byte :: X).
cbn [Wave.chunks length].
replace (S (S (S (S (length X)))) <? 8)%nat with false
  by (symmetry; apply Nat.ltb_ge; lia).
cbn [firstn skipn]. rewrite decide_True by reflexivity.
unfold X. rewrite ?skipn_O.
rewrite take_le_bytes, drop_le_bytes, le_value_le_bytes_4 by lia.
rewrite Hev, Z.add_0_r, <- Hlen, firstn_app, Nat.sub_diag, firstn_all.
rewrite skipn_app, Nat.sub_diag, skipn_all. cbn [firstn skipn app].
rewrite app_nil_r. reflexivity.
Qed.

Lemma chunks_data fuel f size rest :
0 <= size <= 4294967295 ->
Wave.chunks (S fuel) (Some f) (blit "data" ++ le_bytes 4 size ++ rest)
= let '(nch, sw, rate) := f in
  Some (nch, sw, rate, size, firstn (Z.to_nat size) rest).
Proof.
intros Hsize.
set (X := le_bytes 4 size ++ rest).
assert (HX : (4 <= length X)%nat)
  by (unfold X; rewrite length_app, length_le_bytes; lia).
change (blit "data" ++ X)
  with ("d"%byte :: "a"%byte :: "t"%byte :: "a"%byte :: X).
cbn [Wave.chunks length].
replace (S (S (S (S (length X)))) <? 8)%nat with false
  by (symmetry; apply Nat.ltb_ge; lia).
cbn [firstn skipn]. rewrite decide_False by discriminate.
rewrite decide_True by reflexivity.
unfold X. rewrite ?skipn_O.
rewrite take_le_bytes, drop_le_bytes, le_value_le_bytes_4 by lia.
destruct f as [[nch sw] rate]. reflexivity.
Qed.

Lemma read_wav_riff n cs :
0 <= n <= 4294967295 ->
length (blit "WAVE" ++ cs) = Z.to_nat n ->
Wave.read_wav (blit "RIFF" ++ le_bytes 4 n ++ blit "WAVE" ++ cs)
= match Wave.chunks (4 + length cs) None cs with
  | None => None
  | Some (nch, sw, rate, size, data) =>
      Some (Wave.mkParams nch sw rate (size / (nch * sw)),
            firstn (Z.to_nat (size / (nch * sw) * (nch * sw))) data)
  end.
Proof.
intros Hn Hlen.
set (X := le_bytes 4 n ++ blit "WAVE" ++ cs).
assert (HX : (8 <= length X)%nat).
{ unfold X. rewrite length_app, length_le_bytes, length_app.
  change (length (blit "WAVE")) with 4%nat. lia. }
change (blit "RIFF" ++ X)
  with ("R"%byte :: "I"%byte :: "F"%byte :: "F"%byte :: X).
unfold Wave.read_wav. cbn [length].
replace (S (S (S (S (length X)))) <? 12)%nat with false
  by (symmetry; apply Nat.ltb_ge; lia).
cbn [firstn skipn]. rewrite decide_True by reflexivity.
rewrite ?skipn_O.
unfold X. rewrite ?skipn_O.
rewrite take_le_bytes, drop_le_bytes, le_value_le_bytes_4 by lia.
rewrite <- Hlen, firstn_all.
change (blit "WAVE" ++ cs)
  with ("W"%byte :: "A"%byte :: "V"%byte :: "E"%byte :: cs).
cbn [firstn skipn length]. rewrite decide_True by reflexivity.
reflexivity.
Qed.

Lemma read_wav_encoded L data :
L = Z.of_nat (length data) -> L mod 2 = 0 -> 36 + L <= 4294967295 ->
Wave.read_wav (Wave.wav_header L ++ data)
= Some (Wave.mkParams 1 2 16000 (L / 2), data).
Proof.
intros HL Hev Hfit.
assert (H0 : 0 <= L) by lia.
rewrite wav_header_split.
set (fmtbody := le_bytes 2 1 ++ _).
rewrite <- !app_assoc.
rewrite read_wav_riff; [ | lia | ].
2: { unfold fmtbody. rewrite !length_app, !length_le_bytes.
     change (length (blit "WAVE")) with 4%nat.
     change (length (blit "fmt ")) with 4%nat.
     change (length (blit "data")) with 4%nat. lia. }
cbn [Nat.add].
rewrite chunks_fmt; [ | lia | reflexivity | reflexivity ].
change (Wave._read_fmt_chunk fmtbody) with (Some (1, 2, 16000)).
rewrite length_app.
change (length (blit "fmt ")) with 4%nat. cbn [Nat.add].
rewrite chunks_data by lia.
replace (L / (1 * 2) * (1 * 2)) with L
  by (Z.to_euclidean_division_equations; lia).
replace (Z.to_nat L) with (length data) by lia.
rewrite !firstn_all. reflexivity.
Qed.


Lemma audio_to_wav_bytes_decodes audio :
Forall Np.int16 audio ->
Z.of_nat (length audio) <= 2147483629 ->
exists wav_bytes,
  audio_to_wav_bytes audio = Ret wav_bytes
  /\ wav_bytes = Wave.wav_header (2 * Z.of_nat (length audio)) ++ Np.tobytes audio
  /\ Wave.read_wav wav_bytes
     = Some (Wave.mkParams 1 2 16000 (Z.of_nat (length audio)),
             Np.tobytes audio)
  /\ wav_bytes_to_audio wav_bytes = Some audio.
Proof.
intros Hs Hfit. eexists. split; [apply audio_to_wav_bytes_ok; lia|].
split; [reflexivity|].
destruct (tobytes_even audio) as (HL & HL0 & HLev).
assert (Hr : Wave.read_wav
               (Wave.wav_header (2 * Z.of_nat (length audio))
                ++ Np.tobytes audio)
             = Some (Wave.mkParams 1 2 16000 (Z.of_nat (length audio)),
                     Np.tobytes audio)).
{ rewrite read_wav_encoded; [ | lia | rewrite <- HL; exact HLev | lia ].
  do 3 f_equal. Z.to_euclidean_division_equations; lia. }
split; [exact Hr|].
unfold wav_bytes_to_audio. rewrite Hr. apply frombuffer_tobytes, Hs.
Qed.

(** C1, as amended.  For every non-empty sequence of at most 2147483629
  16-bit signed mono samples (the frames and the 36 bytes of header
  before them then fit the 32-bit length field of the container),
  [audio_to_wav_bytes] returns a byte sequence, and decoding it gives the
  original sequence back exactly. *)
Theorem wav_round_trip (audio : Np.ndarray) :
audio <> [] ->
Forall Np.int16 audio ->
Z.of_nat (length audio) <= 2147483629 ->
exists wav_bytes,
  audio_to_wav_bytes audio = Ret wav_bytes
  /\ wav_bytes_to_audio wav_bytes = Some audio.
Proof.
intros _ Hs Hfit.
destruct (audio_to_wav_bytes_decodes audio Hs Hfit) as (b & He & _ & _ & Hd).
exists b. split; assumption.
Qed.

Lemma wav_round_trip_witness :
let audio := [1; -2; 32767; -32768] in
audio <> []
/\ Forall Np.int16 audio
/\ Z.of_nat (length audio) <= 2147483629
/\ exists wav_bytes,
     audio_to_wav_bytes audio = Ret wav_bytes
     /\ wav_bytes_to_audio wav_bytes = Some audio.
Proof.
cbv zeta.
assert (Hne : [1; -2; 32767; -32768] <> []) by discriminate.
assert (Hs : Forall Np.int16 [1; -2; 32767; -32768])
  by (repeat constructor; unfold Np.int16; lia).
assert (Hfit : Z.of_nat (length [1; -2; 32767; -32768]) <= 2147483629)
  by (simpl; lia).
repeat split; try assumption.
exact (wav_round_trip [1; -2; 32767; -32768] Hne Hs Hfit).
Defined.

(** C1 as stated fails on a capture of 2147483630 samples: the data would
  take 4294967260 bytes, the length written first in the header is 36
  more, and packing it as an unsigned 32-bit field raises: no container
  is produced, so nothing can be decoded. *)
Lemma wav_round_trip_too_long :
let audio := repeat 0 (Z.to_nat 2147483630) in
audio <> []
/\ Forall Np.int16 audio
/\ audio_to_wav_bytes audio = Raise (struct_error "'L'" 4294967295)
/\ ~ (exists wav_bytes,
        audio_to_wav_bytes audio = Ret wav_bytes
        /\ wav_bytes_to_audio wav_bytes = Some audio).
Proof.
intros audio.
assert (Hlen : Z.of_nat (length audio) = 2147483630).
{ unfold audio. rewrite repeat_length. apply Z2Nat.id. lia. }
assert (Hraise : audio_to_wav_bytes audio
                 = Raise (struct_error "'L'" 4294967295))
  by (apply audio_to_wav_bytes_too_long; lia).
split; [|split; [|split]].
- intros E. rewrite E in Hlen. discriminate Hlen.
- unfold audio. apply Forall_forall. intros x Hx.
  apply list_elem_of_In, repeat_spec in Hx. subst x. unfold Np.int16. lia.
- exact Hraise.
- intros (b & Hb & _). rewrite Hraise in Hb. discriminate Hb.
Qed.

(** ** The transcription server *)

Section ServerFacts.
Context `{FloatOps} `{Platform}.
Implicit Types (rq : Server.request) (fs : Server.disk).

Lemma first_free_fresh suffix names fs file :
  Server.first_free suffix names fs = Ret file ->
  fs !! file = None /\ file <> [].
Proof.
  induction names as [|name rest IH]; cbn [Server.first_free]; [discriminate|].
  destruct (fs !! path_join gettempdir (lit "tmp" ++ name ++ suffix)) eqn:E.
  - exact IH.
  - intros [= <-]. split; [exact E|].
    unfold path_join. intros Hnil.
    apply app_eq_nil in Hnil as [_ Hnil].
    apply app_eq_nil in Hnil as [_ Hnil]. discriminate Hnil.
Qed.

Lemma mkstemp_creates suffix names fs fs1 file :
  Server.mkstemp suffix names fs = (fs1, Ret file) ->
  fs1 = <[ file := [] ]> fs /\ fs !! file = None /\ file <> [].
Proof.
  unfold Server.mkstemp.
  destruct (let* ns := names in Server.first_free suffix ns fs) as [f|e] eqn:E;
    [|discriminate].
  intros [= <- <-]. split; [reflexivity|].
  destruct names as [ns|e]; [|discriminate]. cbn [bind] in E.
  eapply first_free_fresh, E.
Qed.


Lemma unlink_missing_ok p fs :
  exists fs', Server.unlink true p fs = (fs', Ret tt) /\ fs' !! p = None
    /\ (fs !! p = None -> fs' = fs).
Proof.
  unfold Server.unlink. destruct (fs !! p) eqn:E.
  - eexists. split; [reflexivity|]. split; [apply lookup_delete_eq|discriminate].
  - eexists. split; [reflexivity|]. split; [exact E|reflexivity].
Qed.

(** What [tmp_path] holds after the [try]: the created file, if any. *)
Lemma try_body_tmp_path rq fs fs1 tmp r :
  Server.try_body rq (Server.upload_suffix rq) fs = (fs1, tmp, r) ->
  tmp = Server.created rq fs /\ (forall p, tmp = Some p -> p <> []).
Proof.
  unfold Server.try_body, Server.created.
  destruct (Server.mkstemp _ _ fs) as [fs0 [p|e]] eqn:Em.
  - apply mkstemp_creates in Em as (_ & _ & Hne).
    assert (Hp : forall q, Some p = Some q -> q <> []) by (intros q [= <-]; exact Hne).
    destruct (Server.audio_read rq); [|intros [= _ <- _]; split; [reflexivity|exact Hp]].
    destruct (Server.write_tmp _ _ _ _) as [fs2 [u|e]];
      [|intros [= _ <- _]; split; [reflexivity|exact Hp]].
    destruct (Server.model_transcribe rq p 5 fs2) as [fs3 [[g i]|e]];
      intros [= _ <- _]; (split; [reflexivity|exact Hp]).
  - intros [= _ <- _]. split; [reflexivity|discriminate].
Qed.

Lemma transcribe_unfold rq fs fs1 tmp r :
  Server.try_body rq (Server.upload_suffix rq) fs = (fs1, tmp, r) ->
  Server.transcribe rq fs
  = (match tmp with Some p => delete p fs1 | None => fs1 end,
     match r with
     | Ret v => Server.Return v
     | Raise e => Server.RaiseHTTPException 500 (str_of_exn e)
     end).
Proof.
  intros E. pose proof (try_body_tmp_path _ _ _ _ _ E) as [_ Hne].
  unfold Server.transcribe. rewrite E.
  destruct tmp as [[|c p]|]; [exfalso; eapply Hne; reflexivity| |reflexivity].
  unfold Server.unlink. destruct (fs1 !! (c :: p)) eqn:El; [reflexivity|].
  rewrite delete_id by exact El. reflexivity.
Qed.

Lemma created_mkstemp rq fs p :
  Server.created rq fs = Some p ->
  Server.mkstemp (Server.upload_suffix rq) (Server.temp_names rq) fs
  = (<[ p := [] ]> fs, Ret p).
Proof.
  unfold Server.created.
  destruct (Server.mkstemp _ _ fs) as [fs0 [q|e]] eqn:Em; [|discriminate].
  intros [= ->]. apply mkstemp_creates in Em as (-> & _). reflexivity.
Qed.


(** C4.  When every step of a request succeeds (the temporary file is
    created, the upload is read and written, the model call returns and
    its segments are iterated to the end), the response has status 200
    and its JSON body has [text] equal to the stripped segment texts
    joined with single spaces, [language] equal to the language the
    model detected and [duration] equal to [round(info.duration, 2)]. *)
Theorem transcribe_success rq fs tmp content fs3 segments info :
  Server.created rq fs = Some tmp ->
  Server.audio_read rq = Ret content ->
  Server.tmp_write rq = Ret tt ->
  Server.model_transcribe rq tmp 5 (<[ tmp := content ]> (<[ tmp := [] ]> fs))
  = (fs3, Ret (segments, info)) ->
  Server.failure segments = None ->
  Server.respond (snd (Server.transcribe rq fs))
  = Server.mkResponse 200
      (Server.JsonObject
         [("text"%string,
           Server.JString
             (join (lit " ")
                   (map (fun segment => strip (Server.text segment))
                        (Server.yielded segments))));
          ("language"%string, Server.JString (Server.language info));
          ("duration"%string,
           Server.JNumber (py_round (Server.duration info) 2))]).
Proof.
  intros Hc Hr Hw Hm Hg.
  assert (E : Server.try_body rq (Server.upload_suffix rq) fs
              = (fs3, Some tmp,
                 Ret (Server.mkTranscript
                        (join (lit " ")
                              (map (fun segment => strip (Server.text segment))
                                   (Server.yielded segments)))
                        (Server.language info)
                        (py_round (Server.duration info) 2)))).
  { unfold Server.try_body. rewrite (created_mkstemp _ _ _ Hc), Hr, Hw.
    cbn [Server.write_tmp]. rewrite Hm.
    unfold Server.consume. rewrite Hg. reflexivity. }
  rewrite (transcribe_unfold _ _ _ _ _ E). reflexivity.
Qed.

End ServerFacts.

(** ** The client loop *)

Section ClientFacts.
Context `{FloatOps} `{Platform}.
Implicit Types (s : session) (w : world).

Lemma after_after w a b : after (after w a) b = after w (a ++ b).
Proof. unfold after. cbn [files dirs trace]. rewrite <- app_assoc. reflexivity. Qed.

Lemma handler_prints e w :
  handler e w = (after w [Print (error_line e)], Ret tt).
Proof. destruct e; reflexivity. Qed.

Lemma record_audio_returns s frames w :
  captured s = Ret frames ->
  record_audio s w
  = (after w [Print (nl ++ lit "  Recording... press Enter to stop." ++ nl)],
     Ret (Np.concatenate frames)).
Proof.
  intros Hc. unfold record_audio. io_step. rewrite Hc.
  destruct frames; reflexivity.
Qed.

Lemma iteration_reaches_try s frames wav_bytes w :
  records s frames wav_bytes ->
  iteration s w
  = (fst (try_except (attempt s wav_bytes) handler
                     (after w (opening (Np.concatenate frames)))),
     match snd (try_except (attempt s wav_bytes) handler
                     (after w (opening (Np.concatenate frames)))) with
     | Ret _ => Ret Continue
     | Raise e => Raise e
     end).
Proof.
  intros ((line & Hl & Hq) & Hc & Hne & Hw).
  unfold iteration. 
  cbv beta iota zeta delta [io_bind input emit print answer].
  cbn [files dirs trace]. rewrite Hl. cbv beta iota.
  rewrite decide_False by exact Hq.
  rewrite (record_audio_returns _ _ _ Hc). cbv beta iota.
  replace (Z.of_nat (length (Np.concatenate frames)) =? 0) with false
    by (symmetry; apply Z.eqb_neq; destruct (Np.concatenate frames);
        [contradiction | cbn [length]; lia]).
  cbn [files dirs trace after]. rewrite Hw. cbv beta iota.
  unfold after, opening, duration_sec. cbn [files dirs trace].
  rewrite <- !app_assoc. cbn [app].
  destruct (try_except _ _ _) as [w2 [u|e]]; reflexivity.
Qed.

Lemma attempt_completed s wav_bytes r formatted w :
  whisper_reply s = Ret r -> ollama_reply s = Ret formatted ->
  mkdir_reply s = Ret tt -> write_reply s = Ret tt ->
  attempt s wav_bytes w
  = (mkWorld (<[ note_path (clock s)
                 := note_content (clock s) formatted (text r) (duration r) ]>
                (files w))
             ({[ OBSIDIAN_VAULT ]} ∪ dirs w)
             (trace w ++ exchange wav_bytes r
                      ++ saving (clock s) r formatted),
     Ret tt).
Proof.
  intros Hw Ho Hm Hd. run_attempt.
  rewrite Hw. cbv beta iota. cbn [files dirs trace].
  rewrite Ho. cbv beta iota. cbn [files dirs trace].
  rewrite Hm. cbv beta iota. cbn [files dirs trace].
  rewrite Hd. cbv beta iota. cbn [files dirs trace].
  unfold exchange, saving, note_path. rewrite <- !app_assoc. reflexivity.
Qed.

(** The [try] raises exactly the first failure of the session, and
    otherwise returns; the only upload it makes is [wav_bytes]. *)
Lemma attempt_outcome s wav_bytes w :
  exists w2 evs,
    attempt s wav_bytes w = (w2, match first_failure s with
                                 | Some e => Raise e
                                 | None => Ret tt
                                 end)
    /\ trace w2 = trace w ++ evs
    /\ (nonempty_upload (PostTranscribe WHISPER_URL (lit "recording.wav")
                                        wav_bytes (lit "audio/wav") 300) ->
        Forall nonempty_upload evs)
    /\ (first_failure s <> None -> files w2 = files w).
Proof.
  unfold first_failure. run_attempt.
  destruct (whisper_reply s) as [r|e]; cbv beta iota; cbn [files dirs trace].
  2: { eexists _, _. split; [reflexivity|]. cbn [trace].
       rewrite <- !app_assoc. split; [reflexivity|].
       split; [intros Hn; repeat constructor; exact Hn | reflexivity]. }
  destruct (ollama_reply s) as [f|e]; cbv beta iota; cbn [files dirs trace].
  2: { eexists _, _. split; [reflexivity|]. cbn [trace].
       rewrite <- !app_assoc. split; [reflexivity|].
       split; [intros Hn; repeat constructor; exact Hn | reflexivity]. }
  destruct (mkdir_reply s) as [u|e]; cbv beta iota; cbn [files dirs trace].
  2: { eexists _, _. split; [reflexivity|]. cbn [trace].
       rewrite <- !app_assoc. split; [reflexivity|].
       split; [intros Hn; repeat constructor; exact Hn | reflexivity]. }
  destruct (write_reply s) as [u'|e]; cbv beta iota; cbn [files dirs trace].
  2: { eexists _, _. split; [reflexivity|]. cbn [trace].
       rewrite <- !app_assoc. split; [reflexivity|].
       split; [intros Hn; repeat constructor; exact Hn | reflexivity]. }
  eexists _, _. split; [reflexivity|]. cbn [trace].
  rewrite <- !app_assoc. split; [reflexivity|].
  split; [intros Hn; repeat constructor; exact Hn | congruence].
Qed.

Lemma wav_sample_count_encoded audio wav_bytes :
  audio_to_wav_bytes audio = Ret wav_bytes ->
  wav_sample_count wav_bytes = Some (Z.of_nat (length audio)).
Proof.
  intros He.
  destruct (Z_le_gt_dec (Z.of_nat (length audio)) 2147483629) as [Hfit|Hbig].
  - assert (E : wav_bytes = Wave.wav_header (2 * Z.of_nat (length audio))
                             ++ Np.tobytes audio).
    { pose proof (audio_to_wav_bytes_ok audio ltac:(lia)) as Hok.
      congruence. }
    subst wav_bytes.
    destruct (tobytes_even audio) as (HL & HL0 & HLev).
    unfold wav_sample_count.
    rewrite read_wav_encoded; [ | lia | rewrite <- HL; exact HLev | lia ].
    cbn [Wave.nframes Wave.nchannels]. f_equal.
    Z.to_euclidean_division_equations; lia.
  - rewrite audio_to_wav_bytes_too_long in He by lia. discriminate He.
Qed.

Lemma upload_nonempty audio wav_bytes :
  audio <> [] ->
  audio_to_wav_bytes audio = Ret wav_bytes ->
  nonempty_upload (PostTranscribe WHISPER_URL (lit "recording.wav")
                                  wav_bytes (lit "audio/wav") 300).
Proof.
  intros Hne He. cbn [nonempty_upload].
  exists (Z.of_nat (length audio)).
  split; [exact (wav_sample_count_encoded _ _ He)|].
  destruct audio; [contradiction | cbn [length]; lia].
Qed.

Lemma iteration_empty_capture s line frames w :
  typed s = Ret line -> lower (strip line) <> lit "q" ->
  captured s = Ret frames -> Np.concatenate frames = [] ->
  iteration s w = (after w empty_pass, Ret Continue).
Proof.
  intros Hl Hq Hc He.
  unfold iteration.
  cbv beta iota zeta delta [io_bind input emit print answer].
  cbn [files dirs trace]. rewrite Hl. cbv beta iota.
  rewrite decide_False by exact Hq.
  rewrite (record_audio_returns _ _ _ Hc), He. cbv beta iota.
  change (Z.of_nat (length (@nil Z)) =? 0) with true. cbv beta iota.
  unfold after, empty_pass, io_ret. cbn [files dirs trace].
  rewrite <- !app_assoc. reflexivity.
Qed.

(** Every pass only appends to the trace, and what it appends keeps
    the uploads non-empty. *)
Lemma iteration_appends s w :
  exists evs,
    trace (fst (iteration s w)) = trace w ++ evs
    /\ Forall nonempty_upload evs.
Proof.
  unfold iteration.
  cbv beta iota zeta delta [io_bind input emit print answer].
  cbn [files dirs trace].
  destruct (typed s) as [line|e]; cbv beta iota.
  2: { eexists. cbn [fst trace]. rewrite <- !app_assoc.
       split; [reflexivity | repeat constructor]. }
  destruct (decide (lower (strip line) = lit "q")) as [Hq|Hq].
  { cbv beta iota delta [io_ret]. eexists. cbn [fst trace].
    rewrite <- !app_assoc. split; [reflexivity | repeat constructor]. }
  unfold record_audio.
  cbv beta iota zeta delta [io_bind input emit print answer].
  cbn [files dirs trace].
  destruct (captured s) as [frames|e]; cbv beta iota.
  2: { eexists. cbn [fst trace]. rewrite <- !app_assoc.
       split; [reflexivity | repeat constructor]. }
  assert (Hrec : (match frames with
                  | [] => io_ret []
                  | _ :: _ => io_ret (Np.concatenate frames)
                  end) = io_ret (Np.concatenate frames))
    by (destruct frames; reflexivity).
  rewrite Hrec. cbv beta iota delta [io_ret].
  destruct (Np.concatenate frames) as [|x audio] eqn:Ea.
  { change (Z.of_nat (length (@nil Z)) =? 0) with true.
    cbv beta iota. eexists. cbn [fst trace].
    rewrite <- !app_assoc. split; [reflexivity | repeat constructor]. }
  replace (Z.of_nat (length (x :: audio)) =? 0) with false
    by (symmetry; apply Z.eqb_neq; cbn [length]; lia).
  cbn [files dirs trace].
  destruct (audio_to_wav_bytes (x :: audio)) as [wav_bytes|e] eqn:Ew;
    cbv beta iota.
  2: { eexists. cbn [fst trace]. rewrite <- !app_assoc.
       split; [reflexivity | repeat constructor]. }
  unfold try_except.
  match goal with |- context [attempt s wav_bytes ?w1] =>
    destruct (attempt_outcome s wav_bytes w1) as (w2 & evs & -> & Ht & Hn & _)
  end.
  assert (Hne : x :: audio <> []) by discriminate.
  specialize (Hn (upload_nonempty _ _ Hne Ew)).
  cbn [trace] in Ht.
  destruct (first_failure s) as [e|].
  - rewrite handler_prints. cbv beta iota. cbn [fst after trace].
    rewrite Ht. rewrite <- !app_assoc. eexists. split; [reflexivity|].
    cbn [app]. repeat constructor.
    apply Forall_app. split; [exact Hn | repeat constructor].
  - cbv beta iota. cbn [fst]. rewrite Ht, <- !app_assoc.
    eexists. split; [reflexivity|]. cbn [app]. repeat constructor. exact Hn.
Qed.

Lemma main_loop_keeps_uploads_nonempty script w :
  Forall nonempty_upload (trace w) ->
  Forall nonempty_upload (trace (fst (main_loop script w))).
Proof.
  revert w. induction script as [|s rest IH]; intros w Hw; [exact Hw|].
  cbn [main_loop]. unfold io_bind.
  destruct (iteration_appends s w) as (evs & Ht & Hn).
  destruct (iteration s w) as [w1 [c|e]]; cbn [fst] in Ht.
  - assert (Hw1 : Forall nonempty_upload (trace w1))
      by (rewrite Ht; apply Forall_app; split; assumption).
    destruct c; [apply IH, Hw1 | exact Hw1].
  - cbn [fst]. rewrite Ht. apply Forall_app. split; assumption.
Qed.

Lemma main_keeps_uploads_nonempty script w :
  Forall nonempty_upload (trace w) ->
  Forall nonempty_upload (trace (fst (main script w))).
Proof.
  intros Hw. unfold main.
  cbv beta iota zeta delta [io_bind print emit]. cbn [files dirs trace].
  apply main_loop_keeps_uploads_nonempty. cbn [trace].
  repeat (apply Forall_app; split); try exact Hw; repeat constructor.
Qed.

Lemma iteration_completed s frames wav_bytes r formatted w :
  completes s frames wav_bytes r formatted ->
  iteration s w
  = (mkWorld (<[ note_path (clock s)
                 := note_content (clock s) formatted (text r) (duration r) ]>
                (files w))
             ({[ OBSIDIAN_VAULT ]} ∪ dirs w)
             (trace w ++ opening (Np.concatenate frames)
                      ++ exchange wav_bytes r
                      ++ saving (clock s) r formatted),
     Ret Continue).
Proof.
  intros (Hrec & Hw & Ho & Hm & Hd).
  rewrite (iteration_reaches_try _ _ _ _ Hrec). unfold try_except.
  rewrite (attempt_completed _ _ _ _ _ Hw Ho Hm Hd).
  cbn [fst snd after files dirs trace]. rewrite <- !app_assoc. reflexivity.
Qed.


Lemma main_loop_continue s rest w w' :
  iteration s w = (w', Ret Continue) ->
  main_loop (s :: rest) w = main_loop rest w'.
Proof. intros E. cbn [main_loop]. unfold io_bind. rewrite E. reflexivity. Qed.

Lemma main_loop_raise s rest w w' e :
  iteration s w = (w', Raise e) ->
  main_loop (s :: rest) w = (w', Raise e).
Proof. intros E. cbn [main_loop]. unfold io_bind. rewrite E. reflexivity. Qed.

(** C3.  A capture that gives no sample makes [record_audio] return the
    empty array; the pass then does nothing but print the "No audio
    captured" line: it makes no network call, and the loop goes on with
    the next pass.  And at any point of any run, every transcription
    request made carries a container that declares more than zero
    samples. *)
Theorem empty_capture_no_network :
  (forall s line frames w,
      typed s = Ret line -> lower (strip line) <> lit "q" ->
      captured s = Ret frames -> Np.concatenate frames = [] ->
      snd (record_audio s w) = Ret []
      /\ iteration s w = (after w empty_pass, Ret Continue)
      /\ Forall (fun e => is_network_call e = false) empty_pass
      /\ In (Print (lit "  No audio captured, try again.")) empty_pass
      /\ forall rest,
           main_loop (s :: rest) w = main_loop rest (after w empty_pass))
  /\ (forall script,
        Forall nonempty_upload (trace (fst (main script initial)))).
Proof.
  split.
  - intros s line frames w Hl Hq Hc He.
    pose proof (iteration_empty_capture _ _ _ w Hl Hq Hc He) as Hi.
    split; [rewrite (record_audio_returns _ _ _ Hc), He; reflexivity|].
    split; [exact Hi|].
    split; [repeat constructor|].
    split; [cbn; tauto|].
    intros rest. apply main_loop_continue, Hi.
  - intros script. apply main_keeps_uploads_nonempty. constructor.
Qed.

Lemma preview_long (transcript : str) :
  (200 < length transcript)%nat ->
  preview transcript = lit "  " ++ firstn 200 transcript ++ lit "..." ++ nl.
Proof.
  intros Hl. unfold preview.
  replace (200 <? length transcript)%nat with true
    by (symmetry; apply Nat.ltb_lt; exact Hl).
  reflexivity.
Qed.

Lemma preview_short (transcript : str) :
  (length transcript <= 200)%nat ->
  preview transcript = lit "  " ++ transcript ++ nl.
Proof.
  intros Hl. unfold preview.
  replace (200 <? length transcript)%nat with false
    by (symmetry; apply Nat.ltb_ge; exact Hl).
  rewrite firstn_all2 by exact Hl. reflexivity.
Qed.

Lemma note_content_split now formatted transcript (d : pyfloat) :
  note_content now formatted transcript d
  = (lit "# Meeting Notes - " ++ strftime_heading now ++ nl ++ nl
     ++ metadata_line d ++ nl ++ nl)
    ++ formatted ++ details_section transcript.
Proof.
  unfold note_content, metadata_line, details_section.
  rewrite <- !app_assoc. reflexivity.
Qed.

Lemma app_regroup {A} (a b c d e : list A) :
  a ++ b ++ (c ++ d ++ e) = (a ++ b ++ c) ++ d ++ e.
Proof. rewrite <- !app_assoc. reflexivity. Qed.

Lemma details_section_split transcript :
  details_section transcript
  = (nl ++ nl ++ lit "---" ++ nl ++ nl ++ lit "<details>" ++ nl
     ++ lit "<summary>Raw Transcript</summary>" ++ nl ++ nl)
    ++ transcript ++ (nl ++ nl ++ lit "</details>" ++ nl).
Proof. unfold details_section. rewrite <- !app_assoc. reflexivity. Qed.

(** C5.  The preview of a transcript of more than 200 characters is its
    first 200 characters followed by [...]; the preview of a shorter one
    is the transcript itself.  In a completed recording the preview is
    what is printed, and the note file holds the transcript in full. *)
Theorem preview_truncates_note_does_not :
  (forall transcript : str,
      ((200 < length transcript)%nat ->
       preview transcript
       = lit "  " ++ firstn 200 transcript ++ lit "..." ++ nl)
      /\ ((length transcript <= 200)%nat ->
          preview transcript = lit "  " ++ transcript ++ nl))
  /\ (forall s frames wav_bytes r formatted w,
        completes s frames wav_bytes r formatted ->
        In (Print (preview (text r))) (trace (fst (iteration s w)))
        /\ exists head tail,
             files (fst (iteration s w)) !! note_path (clock s)
             = Some (head ++ text r ++ tail)).
Proof.
  split.
  - intros t. split; [apply preview_long | apply preview_short].
  - intros s frames wav_bytes r formatted w Hc.
    rewrite (iteration_completed _ _ _ _ _ w Hc). cbn [fst trace files].
    split.
    + apply in_or_app. right. apply in_or_app. right.
      apply in_or_app. left. unfold exchange.
      do 3 right. left. reflexivity.
    + rewrite lookup_insert_eq, note_content_split, details_section_split.
      eexists _, _. f_equal. apply app_regroup.
Qed.


(** C8.  In a completed recording the note file holds, after its heading
    and metadata line, the response of the text-generation service as it
    came, followed by the collapsible section around the raw transcript
    as it came. *)
Theorem note_holds_response_and_transcript s frames wav_bytes r formatted w :
  completes s frames wav_bytes r formatted ->
  exists head,
    files (fst (iteration s w)) !! note_path (clock s)
    = Some (head ++ formatted ++ details_section (text r)).
Proof.
  intros Hc. rewrite (iteration_completed _ _ _ _ _ w Hc). cbn [fst files].
  rewrite lookup_insert_eq, note_content_split. eexists. reflexivity.
Qed.

Lemma same_minute_filename a b :
  same_minute a b -> note_filename a = note_filename b.
Proof.
  intros (Hy & Hmo & Hd & Hh & Hmi).
  unfold note_filename, strftime_filename.
  rewrite Hy, Hmo, Hd, Hh, Hmi. reflexivity.
Qed.

End ClientFacts.

(** ** Sample runs *)

Section Runs.
#[local] Existing Instance Millis.ops.
#[local] Existing Instance Windows.host.
Import Examples.

Example sample_is_encoded :
  audio_to_wav_bytes [1; -2; 3] = Ret wav_bytes.
Proof. vm_compute. reflexivity. Qed.

Example sample_is_decoded :
  wav_bytes_to_audio wav_bytes = Some [1; -2; 3]
  /\ wav_sample_count wav_bytes = Some 3.
Proof. split; vm_compute; reflexivity. Qed.

Example strip_removes_outer_blanks :
  strip (lit "  General notes. ") = lit "General notes.".
Proof. vm_compute. reflexivity. Qed.

Example note_path_of_sample :
  note_path morning
  = lit "C:\Users\SyncthingServiceAcct\mine\mine\Wiser\Voice Notes\2024-03-07-0905-meeting-notes.md".
Proof. vm_compute. reflexivity. Qed.

Example quit_leaves_the_loop :
  snd (main_loop [mkSession (Ret (lit " Q ")) (Ret frames) (Ret reply)
                            (Ret notes) morning (Ret tt) (Ret tt);
                  recording] initial)
  = Ret Exited.
Proof. vm_compute. reflexivity. Qed.

Lemma recording_records : records recording frames wav_bytes.
Proof. sample_records. Defined.

Lemma recording_completes : completes recording frames wav_bytes reply notes.
Proof. split; [exact recording_records | repeat split; reflexivity]. Defined.



Lemma local_and_reported_durations_differ :
  metadata_line (duration reply)
  <> metadata_line (duration_sec (Np.concatenate frames)).
Proof. vm_compute. discriminate. Qed.


Lemma transcribe_success_witness :
  Server.created request ∅ = Some tmp_path
  /\ Server.respond (snd (Server.transcribe request ∅))
     = Server.mkResponse 200
         (Server.JsonObject
            [("text"%string,
              Server.JString (lit "Hello there. General notes."));
             ("language"%string, Server.JString (lit "en"));
             ("duration"%string, Server.JNumber (2470 : pyfloat))]).
Proof.
  assert (Hc : Server.created request ∅ = Some tmp_path)
    by (vm_compute; reflexivity).
  split; [exact Hc|].
  exact (transcribe_success request ∅ tmp_path upload
           (<[ tmp_path := upload ]> (<[ tmp_path := [] ]> ∅))
           heard (Server.mkInfo (lit "en") 2468)
           Hc eq_refl eq_refl eq_refl eq_refl).
Defined.


Lemma empty_capture_no_network_witness :
  typed silence = Ret (lit "")
  /\ lower (strip (lit "")) <> lit "q"
  /\ captured silence = Ret []
  /\ Np.concatenate [] = []
  /\ snd (record_audio silence initial) = Ret []
  /\ iteration silence initial = (after initial empty_pass, Ret Continue).
Proof.
  assert (Hq : lower (strip (lit "")) <> lit "q") by (vm_compute; discriminate).
  split; [reflexivity|]. split; [exact Hq|].
  split; [reflexivity|]. split; [reflexivity|].
  pose proof (proj1 empty_capture_no_network silence (lit "") [] initial
                eq_refl Hq eq_refl eq_refl) as (Hr & Hi & _).
  split; [exact Hr | exact Hi].
Defined.

Lemma preview_truncates_note_does_not_witness :
  completes recording frames wav_bytes reply notes
  /\ In (Print (preview (text reply)))
        (trace (fst (iteration recording initial)))
  /\ exists head tail,
       files (fst (iteration recording initial)) !! note_path (clock recording)
       = Some (head ++ text reply ++ tail).
Proof.
  split; [exact recording_completes|].
  exact (proj2 preview_truncates_note_does_not recording frames wav_bytes
           reply notes initial recording_completes).
Defined.


Lemma note_holds_response_and_transcript_witness :
  completes recording frames wav_bytes reply notes
  /\ exists head,
       files (fst (iteration recording initial)) !! note_path (clock recording)
       = Some (head ++ notes ++ details_section (text reply)).
Proof.
  split; [exact recording_completes|].
  exact (note_holds_response_and_transcript recording frames wav_bytes reply
           notes initial recording_completes).
Defined.


End Runs.


(** C10.  In a completed recording the metadata line of the note is built
    from the [duration] field of the transcription response; the duration
    the client computes from the capture only goes to the "Captured" line
    it prints.  The two can differ: in the sample recording the note says
    2.5 s for a capture of 0.0 s. *)
Theorem note_duration_is_server_reported :
  (forall (F : FloatOps) (P : Platform) s frames wav_bytes r formatted w,
      completes s frames wav_bytes r formatted ->
      (exists tail,
          files (fst (iteration s w)) !! note_path (clock s)
          = Some (lit "# Meeting Notes - " ++ strftime_heading (clock s)
                  ++ nl ++ nl ++ metadata_line (duration r) ++ tail))
      /\ In (Print (lit "  Captured "
                    ++ str_of_float (duration_sec (Np.concatenate frames))
                    ++ lit "s of audio."))
            (trace (fst (iteration s w))))
  /\ (@completes Millis.ops Examples.recording Examples.frames
                 Examples.wav_bytes Examples.reply Examples.notes
      /\ @metadata_line Millis.ops (@duration Millis.ops Examples.reply)
         <> @metadata_line Millis.ops
              (@duration_sec Millis.ops (Np.concatenate Examples.frames))).
Proof.
  split.
  - intros F P s frames wav_bytes r formatted w Hc.
    rewrite (iteration_completed _ _ _ _ _ w Hc). cbn [fst trace files].
    split.
    + rewrite lookup_insert_eq, note_content_split.
      eexists. f_equal. rewrite <- !app_assoc. reflexivity.
    + apply in_or_app. right. apply in_or_app. left. unfold opening.
      do 3 right. left. reflexivity.
  - split; [exact recording_completes|].
    exact local_and_reported_durations_differ.
Qed.

Lemma note_duration_is_server_reported_witness :
  @completes Millis.ops Examples.recording Examples.frames Examples.wav_bytes
             Examples.reply Examples.notes
  /\ exists tail,
       files (fst (@iteration Millis.ops Windows.host Examples.recording initial))
         !! @note_path Windows.host (clock Examples.recording)
       = Some (lit "# Meeting Notes - "
               ++ strftime_heading (clock Examples.recording)
               ++ nl ++ nl
               ++ @metadata_line Millis.ops (@duration Millis.ops Examples.reply)
               ++ tail).
Proof.
  split; [exact recording_completes|].
  exact (proj1 (proj1 note_duration_is_server_reported Millis.ops Windows.host
                  Examples.recording Examples.frames Examples.wav_bytes
                  Examples.reply Examples.notes initial recording_completes)).
Defined.

(** ** More on the client loop *)

Section PassFacts.
Context `{FloatOps} `{Platform}.
Implicit Types (s : session) (w : world).

(** The five ways the [try] body can go. *)
Lemma attempt_cases s wav_bytes w :
  (exists e, whisper_reply s = Raise e
     /\ attempt s wav_bytes w
        = (after w [Print (lit "  Transcribing..."); upload_of wav_bytes],
           Raise e))
  \/ (exists r e, whisper_reply s = Ret r /\ ollama_reply s = Raise e
        /\ attempt s wav_bytes w = (after w (exchange wav_bytes r), Raise e))
  \/ (exists r formatted e,
        whisper_reply s = Ret r /\ ollama_reply s = Ret formatted
        /\ mkdir_reply s = Raise e
        /\ attempt s wav_bytes w
           = (after w (exchange wav_bytes r ++ [Mkdir OBSIDIAN_VAULT]),
              Raise e))
  \/ (exists r formatted e,
        whisper_reply s = Ret r /\ ollama_reply s = Ret formatted
        /\ mkdir_reply s = Ret tt /\ write_reply s = Raise e
        /\ attempt s wav_bytes w
           = (mkWorld (files w) ({[ OBSIDIAN_VAULT ]} ∪ dirs w)
                      (trace w ++ exchange wav_bytes r
                       ++ [Mkdir OBSIDIAN_VAULT;
                           WriteText (note_path (clock s))
                             (note_content (clock s) formatted (text r)
                                           (duration r))]),
              Raise e))
  \/ (exists r formatted,
        whisper_reply s = Ret r /\ ollama_reply s = Ret formatted
        /\ mkdir_reply s = Ret tt /\ write_reply s = Ret tt
        /\ attempt s wav_bytes w
           = (mkWorld (<[ note_path (clock s)
                          := note_content (clock s) formatted (text r)
                                          (duration r) ]> (files w))
                      ({[ OBSIDIAN_VAULT ]} ∪ dirs w)
                      (trace w ++ exchange wav_bytes r
                       ++ saving (clock s) r formatted),
              Ret tt)).
Proof.
  destruct (whisper_reply s) as [r|e] eqn:Hw.
  2: { left. exists e. split; [reflexivity|]. run_attempt. rewrite Hw.
       cbv beta iota. unfold after, upload_of. cbn [files dirs trace].
       rewrite <- !app_assoc. reflexivity. }
  right. destruct (ollama_reply s) as [f|e] eqn:Ho.
  2: { left. exists r, e. do 2 (split; [reflexivity|]). run_attempt.
       rewrite Hw. cbv beta iota. cbn [files dirs trace].
       rewrite Ho. cbv beta iota. unfold after, exchange.
       cbn [files dirs trace]. rewrite <- !app_assoc. reflexivity. }
  right. destruct (mkdir_reply s) as [[]|e] eqn:Hm.
  2: { left. exists r, f, e. do 3 (split; [reflexivity|]). run_attempt.
       rewrite Hw. cbv beta iota. cbn [files dirs trace].
       rewrite Ho. cbv beta iota. cbn [files dirs trace].
       rewrite Hm. cbv beta iota. unfold after, exchange.
       cbn [files dirs trace]. rewrite <- !app_assoc. reflexivity. }
  right. destruct (write_reply s) as [[]|e] eqn:Hd.
  2: { left. exists r, f, e. do 4 (split; [reflexivity|]). run_attempt.
       rewrite Hw. cbv beta iota. cbn [files dirs trace].
       rewrite Ho. cbv beta iota. cbn [files dirs trace].
       rewrite Hm. cbv beta iota. cbn [files dirs trace].
       rewrite Hd. cbv beta iota. unfold exchange, note_path.
       cbn [files dirs trace]. rewrite <- !app_assoc. reflexivity. }
  right. exists r, f. do 4 (split; [reflexivity|]).
  apply attempt_completed; assumption.
Qed.

(** The six ways a pass can go. *)
Lemma iteration_cases s w :
  (exists e, typed s = Raise e
     /\ iteration s w
        = (after w [Print (nl ++ lit "  Press Enter to start recording (or 'q' to quit):");
                    Input (lit "  > ")], Raise e))
  \/ (exists line, typed s = Ret line /\ lower (strip line) = lit "q"
        /\ iteration s w = (after w quit_pass, Ret Break))
  \/ (exists line e, typed s = Ret line /\ lower (strip line) <> lit "q"
        /\ captured s = Raise e
        /\ iteration s w
           = (after w [Print (nl ++ lit "  Press Enter to start recording (or 'q' to quit):");
                       Input (lit "  > ");
                       Print (nl ++ lit "  Recording... press Enter to stop." ++ nl)],
              Raise e))
  \/ (exists line frames, typed s = Ret line /\ lower (strip line) <> lit "q"
        /\ captured s = Ret frames /\ Np.concatenate frames = []
        /\ iteration s w = (after w empty_pass, Ret Continue))
  \/ (exists line frames e, typed s = Ret line /\ lower (strip line) <> lit "q"
        /\ captured s = Ret frames /\ Np.concatenate frames <> []
        /\ audio_to_wav_bytes (Np.concatenate frames) = Raise e
        /\ iteration s w = (after w (opening (Np.concatenate frames)), Raise e))
  \/ (exists frames wav_bytes, records s frames wav_bytes
        /\ iteration s w
           = (let w1 := after w (opening (Np.concatenate frames)) in
              match attempt s wav_bytes w1 with
              | (w2, Ret _) => (w2, Ret Continue)
              | (w2, Raise e) => (after w2 [Print (error_line e)], Ret Continue)
              end)).
Proof.
  destruct (typed s) as [line|e] eqn:Hl.
  2: { left. exists e. split; [reflexivity|]. unfold iteration.
       cbv beta iota zeta delta [io_bind input emit print answer].
       cbn [files dirs trace]. rewrite Hl. cbv beta iota. unfold after.
       cbn [files dirs trace]. rewrite <- !app_assoc. reflexivity. }
  right. destruct (decide (lower (strip line) = lit "q")) as [Hq|Hq].
  { left. exists line. do 2 (split; [reflexivity || assumption|]).
    unfold iteration.
    cbv beta iota zeta delta [io_bind input emit print answer io_ret].
    cbn [files dirs trace]. rewrite Hl. cbv beta iota.
    rewrite decide_True by exact Hq. unfold after, quit_pass.
    cbn [files dirs trace]. rewrite <- !app_assoc. reflexivity. }
  right. destruct (captured s) as [frames|e] eqn:Hc.
  2: { left. exists line, e. do 3 (split; [reflexivity || assumption|]).
       unfold iteration, record_audio.
       cbv beta iota zeta delta [io_bind input emit print answer].
       cbn [files dirs trace]. rewrite Hl. cbv beta iota.
       rewrite decide_False by exact Hq.
       cbn [files dirs trace]. rewrite Hc. cbv beta iota. unfold after.
       cbn [files dirs trace]. rewrite <- !app_assoc. reflexivity. }
  right. destruct (decide (Np.concatenate frames = [])) as [Ea|Hne].
  { left. exists line, frames. do 4 (split; [reflexivity || assumption|]).
    apply (iteration_empty_capture _ line frames); assumption. }
  right.
  destruct (audio_to_wav_bytes (Np.concatenate frames)) as [wav_bytes|e] eqn:Hw.
  2: { left. exists line, frames, e.
       do 5 (split; [reflexivity || assumption|]).
       unfold iteration.
       cbv beta iota zeta delta [io_bind input emit print answer].
       cbn [files dirs trace]. rewrite Hl. cbv beta iota.
       rewrite decide_False by exact Hq.
       rewrite (record_audio_returns _ _ _ Hc). cbv beta iota.
       replace (Z.of_nat (length (Np.concatenate frames)) =? 0) with false
         by (symmetry; apply Z.eqb_neq; destruct (Np.concatenate frames);
             [contradiction | cbn [length]; lia]).
       cbn [files dirs trace after]. rewrite Hw. cbv beta iota.
       unfold after, opening, duration_sec. cbn [files dirs trace].
       rewrite <- !app_assoc. reflexivity. }
  right. exists frames, wav_bytes.
  assert (Hrec : records s frames wav_bytes).
  { split; [exists line; split; [exact Hl | exact Hq]|].
    split; [exact Hc|]. split; assumption. }
  split; [exact Hrec|].
  rewrite (iteration_reaches_try _ _ _ _ Hrec). unfold try_except. cbv zeta.
  destruct (attempt s wav_bytes _) as [w2 [u|e]]; cbn [fst snd];
    [reflexivity|].
  rewrite handler_prints. reflexivity.
Qed.

Lemma lower_is_q (l : str) :
  lower l = lit "q" <-> l = lit "q" \/ l = lit "Q".
Proof.
  change (lit "q") with [113%N]. change (lit "Q") with [81%N].
  split.
  - destruct l as [|c [|c' l]]; cbn [lower map]; try discriminate.
    intros [= Hc]. unfold lower_char in Hc.
    destruct ((65 <=? c)%N && (c <=? 90)%N) eqn:E.
    + right. f_equal. lia.
    + left. f_equal. exact Hc.
  - intros [-> | ->]; reflexivity.
Qed.

Lemma requests_app a b : requests (a ++ b) = requests a ++ requests b.
Proof. apply List.filter_app. Qed.

Lemma requests_opening audio : requests (opening audio) = [].
Proof. reflexivity. Qed.

Lemma requests_exchange wav_bytes (r : result) :
  requests (exchange wav_bytes r) = [upload_of wav_bytes; generate_of (text r)].
Proof. reflexivity. Qed.

Lemma iteration_from_try s frames wav_bytes w :
  records s frames wav_bytes ->
  iteration s w
  = (let w1 := after w (opening (Np.concatenate frames)) in
     match attempt s wav_bytes w1 with
     | (w2, Ret _) => (w2, Ret Continue)
     | (w2, Raise e) => (after w2 [Print (error_line e)], Ret Continue)
     end).
Proof.
  intros Hrec.
  rewrite (iteration_reaches_try _ _ _ _ Hrec). unfold try_except. cbv zeta.
  destruct (attempt s wav_bytes _) as [w2 [u|e]]; cbn [fst snd];
    [reflexivity|].
  rewrite handler_prints. reflexivity.
Qed.

(** X1.  When the line typed at the prompt is [q] or [Q], blanks around
    it apart, the pass prints "Bye!" and the loop ends there: no recording
    starts, no request is made, the disk is as it was, and the sessions
    that would have followed do not take place. *)
Theorem quit_ends_the_loop s line rest w :
  typed s = Ret line ->
  strip line = lit "q" \/ strip line = lit "Q" ->
  main_loop (s :: rest) w = (after w quit_pass, Ret Exited)
  /\ requests quit_pass = []
  /\ files (after w quit_pass) = files w.
Proof.
  intros Hl Hq. apply lower_is_q in Hq.
  split; [|split; reflexivity].
  cbn [main_loop]. unfold io_bind.
  destruct (iteration_cases s w)
    as [(e & Ht & _) | [(line' & Ht & _ & ->) | [(line' & e & Ht & Hn & _)
       | [(line' & fr & Ht & Hn & _) | [(line' & fr & e & Ht & Hn & _)
       | (fr & wav & ((line' & Ht & Hn) & _) & _)]]]]];
    rewrite Hl in Ht; try discriminate Ht; try reflexivity;
    injection Ht as <-; contradiction.
Qed.


(** X5.  A pass only adds to what the client has done, and the requests
    it adds are none, or one transcription request, or one transcription
    request followed by one formatting request for the transcript the
    transcription returned: nothing is sent twice, and nothing is
    formatted that was not transcribed first. *)
Theorem pass_makes_each_request_at_most_once s w :
  exists evs,
    trace (fst (iteration s w)) = trace w ++ evs
    /\ (requests evs = []
        \/ (exists wav_bytes, requests evs = [upload_of wav_bytes])
        \/ (exists wav_bytes r,
              whisper_reply s = Ret r
              /\ requests evs = [upload_of wav_bytes; generate_of (text r)])).
Proof.
  destruct (iteration_cases s w)
    as [(e & _ & ->) | [(line & _ & _ & ->) | [(line & e & _ & _ & _ & ->)
       | [(line & fr & _ & _ & _ & _ & ->)
       | [(line & fr & e & _ & _ & _ & _ & _ & ->)
       | (fr & wav & _ & ->)]]]]]; cbn [fst after trace].
  1-5: eexists; split; [reflexivity | left; reflexivity].
  cbv zeta.
  destruct (attempt_cases s wav (after w (opening (Np.concatenate fr))))
    as [(e & _ & ->) | [(r & e & Hw & _ & ->) | [(r & f & e & Hw & _ & _ & ->)
       | [(r & f & e & Hw & _ & _ & _ & ->) | (r & f & Hw & _ & _ & _ & ->)]]]];
    cbn [fst after trace]; rewrite <- ?app_assoc;
    (eexists; split; [reflexivity|]); rewrite !requests_app, requests_opening;
    cbn [app].
  - right. left. exists wav. reflexivity.
  - right. right. exists wav, r. split; [exact Hw|].
    rewrite requests_exchange. reflexivity.
  - right. right. exists wav, r. split; [exact Hw|].
    rewrite requests_exchange. reflexivity.
  - right. right. exists wav, r. split; [exact Hw|].
    rewrite requests_exchange. reflexivity.
  - right. right. exists wav, r. split; [exact Hw|].
    rewrite requests_exchange. reflexivity.
Qed.

(** X6.  Once a pass has reached its [try]: when the transcription call
    raises, the pass ends with the error line right after that one
    request; when the formatting call raises, with the error line right
    after the two requests; when the directory cannot be made, with the
    error line right after the attempt.  In all three the disk is as it
    was, nothing was written, and the loop goes on. *)
Theorem failed_request_writes_nothing s frames wav_bytes w :
  records s frames wav_bytes ->
  (forall e, whisper_reply s = Raise e ->
     iteration s w
     = (after w (opening (Np.concatenate frames)
                 ++ [Print (lit "  Transcribing..."); upload_of wav_bytes;
                     Print (error_line e)]),
        Ret Continue))
  /\ (forall r e, whisper_reply s = Ret r -> ollama_reply s = Raise e ->
        iteration s w
        = (after w (opening (Np.concatenate frames) ++ exchange wav_bytes r
                    ++ [Print (error_line e)]),
           Ret Continue))
  /\ (forall r formatted e,
        whisper_reply s = Ret r -> ollama_reply s = Ret formatted ->
        mkdir_reply s = Raise e ->
        iteration s w
        = (after w (opening (Np.concatenate frames) ++ exchange wav_bytes r
                    ++ [Mkdir OBSIDIAN_VAULT; Print (error_line e)]),
           Ret Continue)).
Proof.
  intros Hrec. rewrite (iteration_from_try _ _ _ w Hrec). cbv zeta.
  split; [|split].
  - intros e He.
    destruct (attempt_cases s wav_bytes
                (after w (opening (Np.concatenate frames))))
      as [(e' & Hw & ->) | [(r & e' & Hw & _) | [(r & f & e' & Hw & _)
         | [(r & f & e' & Hw & _) | (r & f & Hw & _)]]]];
      rewrite He in Hw; try discriminate Hw. injection Hw as <-.
    rewrite !after_after. reflexivity.
  - intros r e Hr He.
    destruct (attempt_cases s wav_bytes
                (after w (opening (Np.concatenate frames))))
      as [(e' & Hw & _) | [(r' & e' & Hw & Ho & ->)
         | [(r' & f & e' & _ & Ho & _)
         | [(r' & f & e' & _ & Ho & _) | (r' & f & _ & Ho & _)]]]];
      try (rewrite Hr in Hw; discriminate Hw);
      try (rewrite He in Ho; discriminate Ho).
    rewrite Hr in Hw. injection Hw as <-. rewrite He in Ho. injection Ho as <-.
    rewrite !after_after, <- ?app_assoc. reflexivity.
  - intros r f e Hr Hf He.
    destruct (attempt_cases s wav_bytes
                (after w (opening (Np.concatenate frames))))
      as [(e' & Hw & _) | [(r' & e' & _ & Ho & _)
         | [(r' & f' & e' & Hw & _ & Hm & ->)
         | [(r' & f' & e' & _ & _ & Hm & _) | (r' & f' & _ & _ & Hm & _)]]]];
      try (rewrite Hr in Hw; discriminate Hw);
      try (rewrite Hf in Ho; discriminate Ho);
      try (rewrite He in Hm; discriminate Hm).
    rewrite Hr in Hw. injection Hw as <-. rewrite He in Hm. injection Hm as <-.
    rewrite !after_after, <- ?app_assoc. reflexivity.
Qed.

Lemma pass_keeps_other_files s w p :
  p <> note_path (clock s) ->
  files (fst (iteration s w)) !! p = files w !! p.
Proof.
  intros Hp.
  destruct (iteration_cases s w)
    as [(e & _ & ->) | [(line & _ & _ & ->) | [(line & e & _ & _ & _ & ->)
       | [(line & fr & _ & _ & _ & _ & ->)
       | [(line & fr & e & _ & _ & _ & _ & _ & ->)
       | (fr & wav & _ & ->)]]]]]; cbn [fst after files]; try reflexivity.
  cbv zeta.
  destruct (attempt_cases s wav (after w (opening (Np.concatenate fr))))
    as [(e & _ & ->) | [(r & e & _ & _ & ->) | [(r & f & e & _ & _ & _ & ->)
       | [(r & f & e & _ & _ & _ & _ & ->) | (r & f & _ & _ & _ & _ & ->)]]]];
    cbn [fst after files]; try reflexivity.
  apply lookup_insert_ne. congruence.
Qed.

Lemma loop_keeps_other_files script w p :
  (forall s, In s script -> p <> note_path (clock s)) ->
  files (fst (main_loop script w)) !! p = files w !! p.
Proof.
  revert w. induction script as [|s rest IH]; intros w Hp; [reflexivity|].
  cbn [main_loop]. unfold io_bind.
  pose proof (pass_keeps_other_files s w p (Hp s (or_introl eq_refl))) as Hs.
  destruct (iteration s w) as [w1 [[]|e]]; cbn [fst] in Hs |- *.
  - rewrite IH by (intros s' Hs'; apply Hp; right; exact Hs'). exact Hs.
  - exact Hs.
  - exact Hs.
Qed.

(** X7.  Whatever the sessions of a run answer, a file whose path is not
    the note path of one of them holds after the run what it held before
    it: the client writes its notes and nothing else. *)
Theorem run_writes_only_notes script w p :
  (forall s, In s script -> p <> note_path (clock s)) ->
  files (fst (main script w)) !! p = files w !! p.
Proof.
  intros Hp. unfold main.
  cbv beta iota zeta delta [io_bind print emit]. cbn [files dirs trace].
  rewrite (loop_keeps_other_files _ _ _ Hp). reflexivity.
Qed.

(** X9.  The preview line is never longer than 206 characters: it is the
    transcript and three characters of layout, or 206 characters when the
    transcript is cut. *)
Theorem preview_is_bounded (transcript : str) :
  (length (preview transcript) <= 206)%nat
  /\ (length (preview transcript) = 3 + length transcript
      \/ length (preview transcript) = 206)%nat.
Proof.
  unfold preview. rewrite !length_app, length_firstn.
  change (length (lit "  ")) with 2%nat. change (length nl) with 1%nat.
  destruct (200 <? length transcript)%nat eqn:E.
  - apply Nat.ltb_lt in E. change (length (lit "...")) with 3%nat. lia.
  - apply Nat.ltb_ge in E. change (length (lit "")) with 0%nat. lia.
Qed.

End PassFacts.

(** X14.  Every line an [except] clause prints starts with "  ERROR: ",
    and the line for a transport failure is never the line for an HTTP
    error response, whatever status and body that one carries. *)
Theorem error_lines_tell_transport_from_http :
  (forall e, exists rest, error_line e = lit "  ERROR: " ++ rest)
  /\ (forall m status_code body m',
        error_line (ConnectionError m)
        <> error_line (HTTPError status_code body m')).
Proof.
  split.
  - intros [m | c b m | m].
    + exists (lit "Cannot reach server. Is the Whisper server running?").
      reflexivity.
    + exists (lit "Server returned " ++ str_of_Z c ++ lit ": " ++ b).
      reflexivity.
    + exists m. reflexivity.
  - intros m c b m' E. apply (f_equal (firstn 10)) in E.
    vm_compute in E. discriminate E.
Qed.

(** ** More on the note path, the container and the handler *)

Lemma parse_digits_acc (u : Decimal.uint) (acc : positive) :
  fold_left (fun a c => (a * 10 + (c - 48))%N) (digits_of_uint u) (Npos acc)
  = Npos (Pos.of_uint_acc u acc).
Proof.
  revert acc. induction u as [|u IH|u IH|u IH|u IH|u IH|u IH|u IH|u IH|u IH|u IH];
    intros acc; cbn [digits_of_uint fold_left Pos.of_uint_acc];
    [reflexivity | rewrite <- IH; f_equal; lia ..].
Qed.

Lemma parse_digits_of_uint (u : Decimal.uint) :
  parse_digits (digits_of_uint u) = N.of_uint u.
Proof.
  unfold parse_digits, N.of_uint.
  induction u as [|u IH|u IH|u IH|u IH|u IH|u IH|u IH|u IH|u IH|u IH];
    cbn [digits_of_uint fold_left Pos.of_uint];
    [reflexivity | exact IH | apply (parse_digits_acc u) ..].
Qed.

Lemma parse_digits_zeros k (s : str) :
  parse_digits (repeat 48%N k ++ s) = parse_digits s.
Proof.
  unfold parse_digits. rewrite fold_left_app. f_equal.
  induction k as [|k IH]; [reflexivity | exact IH].
Qed.

Lemma parse_zfill w n : parse_digits (zfill w (str_of_N n)) = n.
Proof.
  unfold zfill, str_of_N.
  rewrite parse_digits_zeros, parse_digits_of_uint.
  apply DecimalN.Unsigned.of_to.
Qed.

Lemma of_uint_acc_lower (u : Decimal.uint) (acc : positive) :
  (Npos acc * 10 ^ N.of_nat (length (digits_of_uint u))
   <= Npos (Pos.of_uint_acc u acc))%N.
Proof.
  revert acc. induction u as [|u IH|u IH|u IH|u IH|u IH|u IH|u IH|u IH|u IH|u IH];
    intros acc; cbn [digits_of_uint length Pos.of_uint_acc];
    [ cbn; lia | .. ];
    rewrite Nat2N.inj_succ, N.pow_succ_r';
    (etransitivity; [|apply IH]);
    rewrite N.mul_assoc; apply N.mul_le_mono_r; lia.
Qed.

Lemma nzhead_head (d : Decimal.uint) :
  match Decimal.nzhead d with Decimal.D0 _ => False | _ => True end.
Proof. induction d; cbn [Decimal.nzhead]; auto. Qed.

Lemma digits_lower (u : Decimal.uint) :
  match u with Decimal.Nil | Decimal.D0 _ => False | _ => True end ->
  (10 ^ N.of_nat (length (digits_of_uint u) - 1) <= N.of_uint u)%N.
Proof.
  unfold N.of_uint.
  destruct u as [|u|u|u|u|u|u|u|u|u|u]; intros Hu; try contradiction;
    cbn [digits_of_uint length Pos.of_uint]; rewrite Nat.sub_succ, Nat.sub_0_r;
    (etransitivity; [|apply of_uint_acc_lower]); lia.
Qed.

Lemma length_str_of_N (w : nat) (n : N) :
  (0 < w)%nat -> (n < 10 ^ N.of_nat w)%N ->
  (length (str_of_N n) <= w)%nat.
Proof.
  intros Hw Hn. unfold str_of_N.
  pose proof (DecimalN.Unsigned.to_of (N.to_uint n)) as Hnorm.
  rewrite DecimalN.Unsigned.of_to in Hnorm.
  pose proof (DecimalN.Unsigned.of_to n) as Hval.
  remember (N.to_uint n) as u eqn:Hu. clear Hu.
  unfold Decimal.unorm in Hnorm. pose proof (nzhead_head u) as Hh.
  destruct (Decimal.nzhead u) eqn:E; try contradiction.
  1: { rewrite Hnorm. cbn. lia. }
  all: assert (Hc : match u with
                    | Decimal.Nil | Decimal.D0 _ => False
                    | _ => True
                    end) by (rewrite Hnorm; exact I);
       pose proof (digits_lower u Hc) as Hlow; rewrite Hval in Hlow;
       assert (Hlt : (10 ^ N.of_nat (length (digits_of_uint u) - 1)
                      < 10 ^ N.of_nat w)%N) by lia;
       apply N.pow_lt_mono_r_iff in Hlt; lia.
Qed.

Lemma length_zfill w n :
  (0 < w)%nat -> (n < 10 ^ N.of_nat w)%N ->
  length (zfill w (str_of_N n)) = w.
Proof.
  intros Hw Hn. unfold zfill. rewrite length_app, repeat_length.
  pose proof (length_str_of_N w n Hw Hn). lia.
Qed.

Lemma padded_inj w a b (x y : str) :
  (0 < w)%nat -> (a < 10 ^ N.of_nat w)%N -> (b < 10 ^ N.of_nat w)%N ->
  zfill w (str_of_N a) ++ x = zfill w (str_of_N b) ++ y ->
  a = b /\ x = y.
Proof.
  intros Hw Ha Hb E.
  apply app_inj_1 in E as [E ->];
    [|rewrite !length_zfill by assumption; reflexivity].
  split; [|reflexivity].
  rewrite <- (parse_zfill w a), <- (parse_zfill w b), E. reflexivity.
Qed.

Lemma strftime_filename_inj a b :
  valid_datetime a -> valid_datetime b ->
  strftime_filename a = strftime_filename b -> same_minute a b.
Proof.
  intros (Hy & Hmo & Hd & Hh & Hmi & _) (Hy' & Hmo' & Hd' & Hh' & Hmi' & _).
  unfold strftime_filename. intros E.
  apply padded_inj in E as [Ey E]; [|cbn; lia..].
  apply app_inv_head in E.
  apply padded_inj in E as [Emo E]; [|cbn; lia..].
  apply app_inv_head in E.
  apply padded_inj in E as [Ed E]; [|cbn; lia..].
  apply app_inv_head in E.
  apply padded_inj in E as [Eh E]; [|cbn; lia..].
  rewrite <- (app_nil_r (zfill 2 (str_of_N (minute a)))) in E.
  rewrite <- (app_nil_r (zfill 2 (str_of_N (minute b)))) in E.
  apply padded_inj in E as [Emi _]; [|cbn; lia..].
  repeat split; assumption.
Qed.

(** X8.  For clock readings in the ranges [datetime] allows, two notes
    get the same path exactly when they are written in the same minute:
    notes of different minutes never overwrite each other. *)
Theorem note_paths_collide_only_within_a_minute `{Platform} (a b : datetime) :
  valid_datetime a -> valid_datetime b ->
  (note_path a = note_path b <-> same_minute a b).
Proof.
  intros Ha Hb. split.
  - unfold note_path, path_join, note_filename. intros E.
    apply app_inv_head, app_inv_head, app_inv_tail in E.
    apply strftime_filename_inj; assumption.
  - intros Hs. unfold note_path. rewrite (same_minute_filename _ _ Hs).
    reflexivity.
Qed.

Lemma length_wav_header L : length (Wave.wav_header L) = 44%nat.
Proof.
  unfold Wave.wav_header. rewrite !length_app, !length_le_bytes. reflexivity.
Qed.

(** X3.  For a capture of at most 2147483629 samples, the empty one
    included, [audio_to_wav_bytes] returns 44 bytes of header followed by
    two bytes per sample, and the standard reader finds in it one channel,
    two bytes per sample, 16000 frames per second, as many frames as there
    are samples, and the samples' bytes. *)
Theorem wav_container_layout (audio : Np.ndarray) :
  Z.of_nat (length audio) <= 2147483629 ->
  exists wav_bytes,
    audio_to_wav_bytes audio = Ret wav_bytes
    /\ length wav_bytes = (44 + 2 * length audio)%nat
    /\ Wave.read_wav wav_bytes
       = Some (Wave.mkParams 1 2 SAMPLE_RATE (Z.of_nat (length audio)),
               Np.tobytes audio).
Proof.
  intros Hfit. eexists. split; [apply audio_to_wav_bytes_ok; lia|].
  destruct (tobytes_even audio) as (HL & HL0 & HLev).
  split.
  - rewrite length_app, length_wav_header, length_tobytes. reflexivity.
  - rewrite read_wav_encoded; [ | lia | rewrite <- HL; exact HLev | lia ].
    do 3 f_equal. unfold SAMPLE_RATE. f_equal.
    Z.to_euclidean_division_equations; lia.
Qed.

(** X4.  [audio_to_wav_bytes] returns a container exactly when the
    capture has at most 2147483629 samples; on a longer one it raises. *)
Theorem wav_encoding_succeeds_iff_it_fits (audio : Np.ndarray) :
  (exists wav_bytes, audio_to_wav_bytes audio = Ret wav_bytes)
  <-> Z.of_nat (length audio) <= 2147483629.
Proof.
  split.
  - intros (b & Hb).
    destruct (Z_le_gt_dec (Z.of_nat (length audio)) 2147483629) as [Hfit|Hbig];
      [exact Hfit|].
    rewrite audio_to_wav_bytes_too_long in Hb by lia. discriminate Hb.
  - intros Hfit. eexists. apply audio_to_wav_bytes_ok. lia.
Qed.

Section HandlerFacts.
Context `{FloatOps} `{Platform}.
Implicit Types (rq : Server.request) (fs : Server.disk).





(** X12.  The status of the response is 200 or 500, and it is 200 only
    when every step succeeded: the temporary file was created, the upload
    read and written to it, the model call returned on that file with beam
    size 5, and its segments were iterated to the end. *)
Theorem ok_only_when_every_step_succeeded rq fs :
  (Server.status (Server.respond (snd (Server.transcribe rq fs))) = 200
   \/ Server.status (Server.respond (snd (Server.transcribe rq fs))) = 500)
  /\ (Server.status (Server.respond (snd (Server.transcribe rq fs))) = 200 ->
      exists tmp content fs3 segments info,
        Server.created rq fs = Some tmp
        /\ Server.audio_read rq = Ret content
        /\ Server.tmp_write rq = Ret tt
        /\ Server.model_transcribe rq tmp 5
             (<[ tmp := content ]> (<[ tmp := [] ]> fs))
           = (fs3, Ret (segments, info))
        /\ Server.failure segments = None).
Proof.
  destruct (Server.try_body rq (Server.upload_suffix rq) fs)
    as [[fs1 tmp] r] eqn:E.
  rewrite (transcribe_unfold _ _ _ _ _ E). cbn [snd].
  split; [destruct r; [left|right]; reflexivity|].
  destruct r as [v|e]; [intros _ | cbn; discriminate].
  revert E. unfold Server.try_body, Server.created.
  destruct (Server.mkstemp _ _ fs) as [fs0 [p|e]] eqn:Em; [|discriminate].
  apply mkstemp_creates in Em as (-> & _).
  destruct (Server.audio_read rq) as [content|e]; [|discriminate].
  unfold Server.write_tmp. destruct (Server.tmp_write rq) as [[]|e];
    [|discriminate].
  destruct (Server.model_transcribe rq p 5 _) as [fs3 [[g i]|e]] eqn:Hm;
    [|discriminate].
  unfold Server.consume. destruct (Server.failure g) eqn:Hg; [discriminate|].
  intros _. exists p, content, fs3, g, i. repeat split; assumption.
Qed.

End HandlerFacts.

(** ** What ends the client *)

Section EscapeFacts.
Context `{FloatOps} `{Platform}.
Implicit Types (s : session) (w : world).

(** X15.  A pass ends with an uncaught exception exactly when reading
    the prompt raised it, or, the line typed not being a quit, when the
    capture raised it or the encoding of a non-empty capture did: nothing
    raised by the transcription, the formatting or the writing of the note
    leaves the loop. *)
Theorem what_escapes_the_loop s w e :
  snd (iteration s w) = Raise e
  <-> typed s = Raise e
      \/ (exists line,
            typed s = Ret line /\ lower (strip line) <> lit "q"
            /\ (captured s = Raise e
                \/ exists frames,
                     captured s = Ret frames
                     /\ Np.concatenate frames <> []
                     /\ audio_to_wav_bytes (Np.concatenate frames) = Raise e)).
Proof.
  destruct (iteration_cases s w)
    as [(e' & Ht & ->) | [(line & Ht & Hq & ->) | [(line & e' & Ht & Hn & Hc & ->)
       | [(line & fr & Ht & Hn & Hc & He & ->)
       | [(line & fr & e' & Ht & Hn & Hc & Hne & Hw & ->)
       | (fr & wav & ((line & Ht & Hn) & Hc & Hne & Hw) & ->)]]]]]; cbn [snd].
  - split.
    + intros [= ->]. left. exact Ht.
    + intros [Ht' | (l & Ht' & _)]; rewrite Ht in Ht'; congruence.
  - split; [discriminate|].
    intros [Ht' | (l & Ht' & Hn & _)]; rewrite Ht in Ht'; [discriminate|].
    injection Ht' as <-. contradiction.
  - split.
    + intros [= ->]. right. exists line. repeat split; try assumption.
      left. exact Hc.
    + intros [Ht' | (l & _ & _ & [Hc' | (fr & Hc' & _)])];
        [rewrite Ht in Ht'; discriminate | | ]; rewrite Hc in Hc'; congruence.
  - split; [discriminate|].
    intros [Ht' | (l & _ & _ & [Hc' | (fr' & Hc' & Hne' & _)])];
      [rewrite Ht in Ht'; discriminate | rewrite Hc in Hc'; discriminate |].
    rewrite Hc in Hc'. injection Hc' as <-. contradiction.
  - split.
    + intros [= ->]. right. exists line. repeat split; try assumption.
      right. exists fr. repeat split; assumption.
    + intros [Ht' | (l & _ & _ & [Hc' | (fr' & Hc' & _ & Hw')])];
        [rewrite Ht in Ht'; discriminate | rewrite Hc in Hc'; discriminate |].
      rewrite Hc in Hc'. injection Hc' as <-. rewrite Hw in Hw'. congruence.
  - cbv zeta.
    assert (Hno : snd (match attempt s wav (after w (opening (Np.concatenate fr)))
                       with
                       | (w2, Ret _) => (w2, Ret Continue)
                       | (w2, Raise e0) =>
                           (after w2 [Print (error_line e0)], Ret Continue)
                       end) = Ret Continue)
      by (destruct (attempt s wav _) as [w2 [u|e0]]; reflexivity).
    rewrite Hno. split; [discriminate|].
    intros [Ht' | (l & _ & _ & [Hc' | (fr' & Hc' & _ & Hw')])];
      [rewrite Ht in Ht'; discriminate | rewrite Hc in Hc'; discriminate |].
    rewrite Hc in Hc'. injection Hc' as <-. rewrite Hw in Hw'. discriminate.
Qed.
End EscapeFacts.

Section MoreRuns.
#[local] Existing Instance Millis.ops.
#[local] Existing Instance Windows.host.
Import Examples Scenarios.

Lemma quit_ends_the_loop_witness :
  typed leaving = Ret (lit " Q ")
  /\ (strip (lit " Q ") = lit "q" \/ strip (lit " Q ") = lit "Q")
  /\ main_loop [leaving; recording] desk = (after desk quit_pass, Ret Exited).
Proof.
  assert (Hq : strip (lit " Q ") = lit "q" \/ strip (lit " Q ") = lit "Q")
    by (right; vm_compute; reflexivity).
  split; [reflexivity|]. split; [exact Hq|].
  exact (proj1 (quit_ends_the_loop leaving (lit " Q ") [recording] desk
                  eq_refl Hq)).
Defined.


Lemma wav_container_layout_witness :
  Z.of_nat (length (@nil Z)) <= 2147483629
  /\ exists wav_bytes,
       audio_to_wav_bytes [] = Ret wav_bytes
       /\ length wav_bytes = (44 + 2 * length (@nil Z))%nat
       /\ Wave.read_wav wav_bytes
          = Some (Wave.mkParams 1 2 SAMPLE_RATE (Z.of_nat (length (@nil Z))),
                  Np.tobytes []).
Proof.
  assert (Hfit : Z.of_nat (length (@nil Z)) <= 2147483629) by (cbn; lia).
  split; [exact Hfit|].
  exact (wav_container_layout [] Hfit).
Defined.

Lemma unformatted_records : records unformatted frames wav_bytes.
Proof. sample_records. Defined.

Lemma failed_request_writes_nothing_witness :
  records unformatted frames wav_bytes
  /\ whisper_reply unformatted = Ret reply
  /\ ollama_reply unformatted
     = Raise (ConnectionError (lit "Connection refused"))
  /\ iteration unformatted desk
     = (after desk (opening (Np.concatenate frames) ++ exchange wav_bytes reply
                    ++ [Print (error_line
                                 (ConnectionError (lit "Connection refused")))]),
        Ret Continue).
Proof.
  split; [exact unformatted_records|].
  split; [reflexivity|]. split; [reflexivity|].
  exact (proj1 (proj2 (failed_request_writes_nothing unformatted frames wav_bytes
                         desk unformatted_records))
           reply (ConnectionError (lit "Connection refused"))
           eq_refl eq_refl).
Defined.

Lemma run_writes_only_notes_witness :
  (forall s, In s [recording; unformatted] -> diary <> note_path (clock s))
  /\ files (fst (main [recording; unformatted] desk)) !! diary
     = Some (lit "Dear diary").
Proof.
  assert (Hp : forall s, In s [recording; unformatted] ->
                         diary <> note_path (clock s)).
  { intros s [<- | [<- | []]]; vm_compute; discriminate. }
  split; [exact Hp|].
  rewrite (run_writes_only_notes [recording; unformatted] desk diary Hp).
  vm_compute. reflexivity.
Defined.

Lemma note_paths_collide_only_within_a_minute_witness :
  valid_datetime morning /\ valid_datetime same_morning
  /\ (note_path morning = note_path same_morning
      <-> same_minute morning same_morning).
Proof.
  assert (Ha : valid_datetime morning) by (unfold valid_datetime; cbn; lia).
  assert (Hb : valid_datetime same_morning)
    by (unfold valid_datetime; cbn; lia).
  split; [exact Ha|]. split; [exact Hb|].
  exact (note_paths_collide_only_within_a_minute morning same_morning Ha Hb).
Defined.




Lemma ok_only_when_every_step_succeeded_witness :
  Server.status (Server.respond (snd (Server.transcribe request ∅))) = 200
  /\ exists tmp content fs3 segments info,
       Server.created request ∅ = Some tmp
       /\ Server.audio_read request = Ret content
       /\ Server.tmp_write request = Ret tt
       /\ Server.model_transcribe request tmp 5
            (<[ tmp := content ]> (<[ tmp := [] ]> ∅))
          = (fs3, Ret (segments, info))
       /\ Server.failure segments = None.
Proof.
  assert (Hs : Server.status
                 (Server.respond (snd (Server.transcribe request ∅))) = 200)
    by (vm_compute; reflexivity).
  split; [exact Hs|].
  exact (proj2 (ok_only_when_every_step_succeeded request ∅) Hs).
Defined.

End MoreRuns.
